(** * The batch pipeline of OpenSCAD: [cmdline] of src/openscad.cc

    A shallow embedding of the command-line driver [cmdline] and of its
    helper [checkAndExport], together with the properties of the
    evaluation-and-export dispatch that the specification states.

    The driver is sequential code with early [return]s that talks to the
    file system, to the message printer and to the geometry collaborators.
    It is embedded as a function in a small state monad with an "early
    return" outcome; the state ([World]) holds the file system, the current
    directory, the installed output handler, the dependency set and a
    journal of the collaborator invocations. *)

From Stdlib Require Import ZArith Ascii String List Lia Bool DecimalString.
From stdpp Require Import base option gmap strings list fin_maps.

Local Open Scope string_scope.

(** ** Strings: lower-casing and the extension of a path *)

Module Str.

(** One character of [boost::algorithm::to_lower] (classic locale): the
    letters A..Z move to a..z, every other character is kept. *)
Definition to_lower_char (c : ascii) : ascii :=
  let n := nat_of_ascii c in
  if (65 <=? n)%nat && (n <=? 90)%nat then ascii_of_nat (n + 32) else c.

Fixpoint to_lower (s : string) : string :=
  match s with
  | EmptyString => EmptyString
  | String c r => String (to_lower_char c) (to_lower r)
  end.

(** [has_char c s]: the character [c] occurs in [s]. *)
Fixpoint has_char (c : ascii) (s : string) : bool :=
  match s with
  | EmptyString => false
  | String d r => Ascii.eqb c d || has_char c r
  end.

(** The last component of a path: what follows its last slash. *)
Fixpoint filename_of (s : string) : string :=
  match s with
  | EmptyString => EmptyString
  | String c r =>
      if has_char "/" r then filename_of r
      else if Ascii.eqb c "/" then r else s
  end.

(** The part of a name from its last dot on (empty without a dot). *)
Fixpoint from_last_dot (s : string) : string :=
  match s with
  | EmptyString => EmptyString
  | String c r =>
      if has_char "." r then from_last_dot r
      else if Ascii.eqb c "." then s else EmptyString
  end.

(** Modelled from the spec: [boosty::extension_str] (boosty.h is not
    among the sources), the "destination filename suffix" of the spec.
    It wraps [boost::filesystem::path::extension]: the last component of
    the path from its last dot on, empty for a name without a dot and
    for the names "." and "..". *)
Definition extension_str (path : string) : string :=
  let name := filename_of path in
  if String.eqb name "." || String.eqb name ".." then EmptyString
  else from_last_dot name.

(** Two characters that differ at most by the case of a letter. *)
Definition same_char_nocase (c d : ascii) : bool :=
  Ascii.eqb c d
  || (let n := nat_of_ascii c in
      (65 <=? n)%nat && (n <=? 90)%nat && (nat_of_ascii d =? n + 32)%nat)
  || (let n := nat_of_ascii d in
      (65 <=? n)%nat && (n <=? 90)%nat && (nat_of_ascii c =? n + 32)%nat).

(** Equality of strings up to the case of letters, character by
    character (stated without [to_lower]). *)
Fixpoint eq_nocase (s t : string) : bool :=
  match s, t with
  | EmptyString, EmptyString => true
  | String c r, String d q => same_char_nocase c d && eq_nocase r q
  | _, _ => false
  end.

(** Decimal representation of a number, as [%d] prints it. *)
Definition decimal (n : N) : string :=
  NilEmpty.string_of_uint (N.to_uint n).

(** [is_prefix p s] and [contains p s]: substring search. *)
Fixpoint is_prefix (p s : string) : bool :=
  match p, s with
  | EmptyString, _ => true
  | String a p', String b s' => Ascii.eqb a b && is_prefix p' s'
  | String _ _, EmptyString => false
  end.

Fixpoint contains (p s : string) : bool :=
  is_prefix p s ||
  match s with
  | EmptyString => false
  | String _ r => contains p r
  end.

End Str.

(** ** The output request: ten destination pointers, at most one set *)

(** The ten [const char *..._output_file] locals of [cmdline]
    (openscad.cc:248-257); [None] is the NULL pointer. *)
Record OutputFiles := mkOutputFiles {
  stl_output_file : option string;
  off_output_file : option string;
  amf_output_file : option string;
  dxf_output_file : option string;
  svg_output_file : option string;
  csg_output_file : option string;
  png_output_file : option string;
  ast_output_file : option string;
  term_output_file : option string;
  echo_output_file : option string
}.

(** The suffix chain of openscad.cc:262-275. [None] is the last arm:
    "Unknown suffix for output file", [return 1]. *)
Definition assign_output_file (suffix output_file : string) : option OutputFiles :=
  let f := Some output_file in
  if String.eqb suffix ".stl" then
    Some (mkOutputFiles f None None None None None None None None None)
  else if String.eqb suffix ".off" then
    Some (mkOutputFiles None f None None None None None None None None)
  else if String.eqb suffix ".amf" then
    Some (mkOutputFiles None None f None None None None None None None)
  else if String.eqb suffix ".dxf" then
    Some (mkOutputFiles None None None f None None None None None None)
  else if String.eqb suffix ".svg" then
    Some (mkOutputFiles None None None None f None None None None None)
  else if String.eqb suffix ".csg" then
    Some (mkOutputFiles None None None None None f None None None None)
  else if String.eqb suffix ".png" then
    Some (mkOutputFiles None None None None None None f None None None)
  else if String.eqb suffix ".ast" then
    Some (mkOutputFiles None None None None None None None f None None)
  else if String.eqb suffix ".term" then
    Some (mkOutputFiles None None None None None None None None f None)
  else if String.eqb suffix ".echo" then
    Some (mkOutputFiles None None None None None None None None None f)
  else None.

(** The suffix as [cmdline] computes it (openscad.cc:259-260). *)
Definition output_suffix (output_file : string) : string :=
  Str.to_lower (Str.extension_str output_file).

(** Names for the ten formats, used to state which pointer is set. *)
Inductive FormatTag :=
  | TagSTL | TagOFF | TagAMF | TagDXF | TagSVG
  | TagCSG | TagPNG | TagAST | TagTERM | TagECHO.

Definition tag_suffix (t : FormatTag) : string :=
  match t with
  | TagSTL => ".stl" | TagOFF => ".off" | TagAMF => ".amf"
  | TagDXF => ".dxf" | TagSVG => ".svg" | TagCSG => ".csg"
  | TagPNG => ".png" | TagAST => ".ast" | TagTERM => ".term"
  | TagECHO => ".echo"
  end.

Definition all_tags : list FormatTag :=
  [TagSTL; TagOFF; TagAMF; TagDXF; TagSVG; TagCSG; TagPNG; TagAST; TagTERM; TagECHO].

Definition recognized_suffixes : list string := map tag_suffix all_tags.

(** The pointer that belongs to a tag. *)
Definition tag_pointer (o : OutputFiles) (t : FormatTag) : option string :=
  match t with
  | TagSTL => stl_output_file o | TagOFF => off_output_file o
  | TagAMF => amf_output_file o | TagDXF => dxf_output_file o
  | TagSVG => svg_output_file o | TagCSG => csg_output_file o
  | TagPNG => png_output_file o | TagAST => ast_output_file o
  | TagTERM => term_output_file o | TagECHO => echo_output_file o
  end.

(** [if (p)] on a pointer. *)
Definition non_null {A : Type} (p : option A) : bool :=
  match p with Some _ => true | None => false end.

(** The tags whose pointer is not NULL. *)
Definition active_tags (o : OutputFiles) : list FormatTag :=
  List.filter (fun t => non_null (tag_pointer o t)) all_tags.

(** What the suffix chain selects for a destination: the active tags, or
    [None] in the unknown-suffix arm. *)
Definition selected (output_file : string) : option (list FormatTag) :=
  active_tags <$> assign_output_file (output_suffix output_file) output_file.

(** The eleven arms of the chain, by the suffix. *)
Inductive Selection (suffix output_file : string) : option OutputFiles -> Prop :=
  | sel_stl : suffix = ".stl" ->
      Selection suffix output_file
        (Some (mkOutputFiles (Some output_file) None None None None None None None None None))
  | sel_off : suffix = ".off" ->
      Selection suffix output_file
        (Some (mkOutputFiles None (Some output_file) None None None None None None None None))
  | sel_amf : suffix = ".amf" ->
      Selection suffix output_file
        (Some (mkOutputFiles None None (Some output_file) None None None None None None None))
  | sel_dxf : suffix = ".dxf" ->
      Selection suffix output_file
        (Some (mkOutputFiles None None None (Some output_file) None None None None None None))
  | sel_svg : suffix = ".svg" ->
      Selection suffix output_file
        (Some (mkOutputFiles None None None None (Some output_file) None None None None None))
  | sel_csg : suffix = ".csg" ->
      Selection suffix output_file
        (Some (mkOutputFiles None None None None None (Some output_file) None None None None))
  | sel_png : suffix = ".png" ->
      Selection suffix output_file
        (Some (mkOutputFiles None None None None None None (Some output_file) None None None))
  | sel_ast : suffix = ".ast" ->
      Selection suffix output_file
        (Some (mkOutputFiles None None None None None None None (Some output_file) None None))
  | sel_term : suffix = ".term" ->
      Selection suffix output_file
        (Some (mkOutputFiles None None None None None None None None (Some output_file) None))
  | sel_echo : suffix = ".echo" ->
      Selection suffix output_file
        (Some (mkOutputFiles None None None None None None None None None (Some output_file)))
  | sel_unknown : ~ In suffix recognized_suffixes ->
      Selection suffix output_file None.

(** ** Data of the collaborators *)

(** [namespace Render { enum type {...} }] (openscad.cc:78). *)
Module Render.
Inductive type := CGAL | OPENCSG | THROWNTOGETHER.

Definition eqb (a b : type) : bool :=
  match a, b with
  | CGAL, CGAL | OPENCSG, OPENCSG | THROWNTOGETHER, THROWNTOGETHER => true
  | _, _ => false
  end.
End Render.

(** [enum FileFormat] of export.h: the five values [cmdline] passes. *)
Inductive FileFormat :=
  | OPENSCAD_STL | OPENSCAD_OFF | OPENSCAD_AMF | OPENSCAD_DXF | OPENSCAD_SVG.

(** A parsed script. [cmdline] uses its dump and its dependencies. *)
Record FileModule := mkFileModule {
  module_dump : string;                (* what root_module->dump prints *)
  module_dependencies : list string    (* what handleDependencies registers *)
}.

(** A node of the instantiated tree, known by its index
    ([AbstractNode::resetIndexCounter]). *)
Record AbstractNode := mkNode { idx : Z }.

(** An evaluated boolean term; [cmdline] only dumps it. *)
Record CSGTerm := mkCSGTerm { term_dump : string }.

(** An evaluated boundary representation; [checkAndExport] reads its
    dimension ([unsigned]). *)
Record Geometry := mkGeometry { getDimension : N }.

Record Camera := mkCamera { pixel_width : Z; pixel_height : Z }.

(** What [cmdline] gets from the code it calls and from the build: the
    parser, the evaluators, the writers, and whether a path can be opened
    for writing. These are parameters of the embedding. *)
Record Env := mkEnv {
  ENABLE_CGAL : bool;                               (* #ifdef ENABLE_CGAL *)
  commandline_commands : string;                    (* the -D assignments *)
  can_create : string -> bool;                      (* opening for writing succeeds *)
  parse : string -> string -> option FileModule;    (* NULL on a parse error *)
  instantiate : FileModule -> AbstractNode * list string;
                                                    (* the tree, and what the script echoes *)
  find_root_tag : AbstractNode -> option AbstractNode;
  getString : AbstractNode -> string;               (* Tree::getString *)
  evaluateCSGTerm : AbstractNode -> option CSGTerm;
  evaluateGeometry : AbstractNode -> option Geometry;
  exportFile : Geometry -> FileFormat -> string;    (* the STL/OFF/AMF/DXF/SVG writers *)
  export_png : Geometry -> Camera -> string;
  export_png_with_throwntogether : AbstractNode -> Camera -> string;
  export_png_with_opencsg : AbstractNode -> Camera -> string;
  deps_rule : string -> list string -> string       (* the text of the build rule *)
}.

(** ** The world the run acts on *)

(** A [std::ofstream]: the file it was opened on and whether that worked. *)
Record ofstream := mkOfstream { stream_path : string; is_open : bool }.

(** The invocations the journal records, oldest first. *)
Inductive Call :=
  | call_ofstream (path : string) (opened : bool)
  | call_ifstream (path : string) (opened : bool)
  | call_handle_dep (path : string)
  | call_parse
  | call_instantiate
  | call_evaluateCSGTerm (n : AbstractNode)
  | call_evaluateGeometry (n : AbstractNode)
  | call_write_deps (deps_out geom_out : string)
  | call_exportFileByName (format : FileFormat) (name : string)
  | call_export_png (renderer : Render.type).

Record World := mkWorld {
  files : gmap string string;          (* the file system: path to contents *)
  current_path : string;               (* fs::current_path() *)
  stderr : list string;                (* what was printed without a handler *)
  outputhandler : option ofstream;     (* set_output_handler *)
  dependencies : gset string;          (* the set behind handle_dep *)
  journal : list Call
}.

Definition set_files (f : gmap string string) (w : World) : World :=
  mkWorld f (current_path w) (stderr w) (outputhandler w) (dependencies w) (journal w).
Definition set_current_path (p : string) (w : World) : World :=
  mkWorld (files w) p (stderr w) (outputhandler w) (dependencies w) (journal w).
Definition add_stderr (m : string) (w : World) : World :=
  mkWorld (files w) (current_path w) (stderr w ++ [m]) (outputhandler w)
          (dependencies w) (journal w).
Definition set_outputhandler (h : option ofstream) (w : World) : World :=
  mkWorld (files w) (current_path w) (stderr w) h (dependencies w) (journal w).
Definition add_dependency (p : string) (w : World) : World :=
  mkWorld (files w) (current_path w) (stderr w) (outputhandler w)
          ({[ p ]} ∪ dependencies w) (journal w).
Definition record (c : Call) (w : World) : World :=
  mkWorld (files w) (current_path w) (stderr w) (outputhandler w)
          (dependencies w) (journal w ++ [c]).

(** [is_separator(str[i])]: the character at position [i] is a slash
    (reading at the end of the string gives the terminator, which is
    none). *)
Definition is_separator_at (str : string) (i : nat) : bool :=
  match String.get i str with
  | Some c => Ascii.eqb c "/"
  | None => false
  end.

(** [m_append_separator_if_needed] of [boost::filesystem::path]: a slash
    is added to a path that is not empty and does not end in one. *)
Definition append_separator_if_needed (p : string) : string :=
  if (0 <? String.length p)%nat && negb (is_separator_at p (String.length p - 1))
  then p ++ "/" else p.

(** Modelled from the spec: [boosty::absolute] (boosty.h is not among the
    sources), the "resolved" path of the script. It wraps
    [boost::filesystem::absolute] with the current directory as the base:
    an empty path gives the base, a path with a root directory is kept,
    and any other path is appended to the base with [operator/], which
    puts one slash between the two unless the base already ends in one
    (the root directory "/" does). The same resolution stands for the
    operating system's when a stream is opened on a relative name. *)
Definition absolute (dir path : string) : string :=
  match path with
  | EmptyString => dir
  | String "/" _ => path
  | _ => append_separator_if_needed dir ++ path
  end.

(** [str.find_last_of(separators, n - 1)]: the last slash in front of
    position [n]. *)
Fixpoint last_separator_before (str : string) (n : nat) : option nat :=
  match n with
  | O => None
  | S k => if is_separator_at str k then Some k else last_separator_before str k
  end.

(** [str.find_first_of(separators, from)], searching [fuel] positions. *)
Fixpoint first_separator_from (str : string) (from fuel : nat) : option nat :=
  match fuel with
  | O => None
  | S k => if is_separator_at str from then Some from
           else first_separator_from str (S from) k
  end.

(** [filename_pos] of Boost.Filesystem: where the last element of the
    path starts; a path that ends in a slash has that slash as its last
    element. *)
Definition filename_pos (str : string) (end_pos : nat) : nat :=
  if (end_pos =? 2)%nat && is_separator_at str 0 && is_separator_at str 1 then 0%nat
  else if (0 <? end_pos)%nat && is_separator_at str (end_pos - 1) then (end_pos - 1)%nat
  else
    match last_separator_before str end_pos with
    | None => 0%nat
    | Some pos => if (pos =? 1)%nat && is_separator_at str 0 then 0%nat else (pos + 1)%nat
    end.

(** [root_directory_start] of Boost.Filesystem: the position of the slash
    that is the root directory, [None] for [npos]. *)
Definition root_directory_start (path : string) (size : nat) : option nat :=
  if (size =? 2)%nat && is_separator_at path 0 && is_separator_at path 1 then None
  else if (3 <? size)%nat && is_separator_at path 0 && is_separator_at path 1
          && negb (is_separator_at path 2) then
    match first_separator_from path 2 (String.length path) with
    | Some pos => if (pos <? size)%nat then Some pos else None
    | None => None
    end
  else if (0 <? size)%nat && is_separator_at path 0 then Some 0%nat
  else None.

(** The loop of [m_parent_path_end]: step back over the slashes in front
    of the last element, but not over the root directory. *)
Fixpoint skip_separators (str : string) (root_dir_pos : option nat) (end_pos : nat) : nat :=
  match end_pos with
  | O => O
  | S k =>
      if negb (bool_decide (root_dir_pos = Some k)) && is_separator_at str k
      then skip_separators str root_dir_pos k
      else end_pos
  end.

(** [path::m_parent_path_end]; [None] is [npos]. *)
Definition m_parent_path_end (m_pathname : string) : option nat :=
  let size := String.length m_pathname in
  let end_pos := filename_pos m_pathname size in
  let filename_was_separator := (0 <? size)%nat && is_separator_at m_pathname end_pos in
  let root_dir_pos := root_directory_start m_pathname end_pos in
  let end_pos := skip_separators m_pathname root_dir_pos end_pos in
  if (end_pos =? 1)%nat && bool_decide (root_dir_pos = Some 0%nat) && filename_was_separator
  then None
  else Some end_pos.

(** [boost::filesystem::path::parent_path] (the library is not among the
    sources): the path without its last element and the slashes in front
    of it; the root directory is kept, so the parent of a name directly
    under "/" is "/", and a name without a slash has the empty parent. *)
Definition parent_path (m_pathname : string) : string :=
  match m_parent_path_end m_pathname with
  | None => EmptyString
  | Some end_pos => String.substring 0 end_pos m_pathname
  end.

(** ** The monad of [cmdline]: state, early return, undefined behaviour *)

Inductive Outcome (A : Type) :=
  | Next (a : A)         (* the statement completed *)
  | Return (n : Z)       (* [return n;] of cmdline, or the run aborted with status n *)
  | Undefined.           (* a NULL pointer was dereferenced *)
Arguments Next {A} a.
Arguments Return {A} n.
Arguments Undefined {A}.

Definition M (A : Type) : Type := World -> Outcome A * World.

Definition ret {A} (a : A) : M A := fun w => (Next a, w).
Definition bind {A B} (m : M A) (k : A -> M B) : M B :=
  fun w =>
    match m w with
    | (Next a, w') => k a w'
    | (Return n, w') => (Return n, w')
    | (Undefined, w') => (Undefined, w')
    end.
Definition return_ {A} (n : Z) : M A := fun w => (Return n, w).
Definition undefined {A} : M A := fun w => (Undefined, w).
Definition modify (f : World -> World) : M unit := fun w => (Next tt, f w).
Definition get : M World := fun w => (Next w, w).

Notation "'let*' x ':=' c 'in' k" := (bind c (fun x => k))
  (at level 10, x pattern, c at level 100, k at level 200).
Notation "c '>>' k" := (bind c (fun _ => k))
  (at level 100, k at level 200, right associativity).

Definition when (b : bool) (m : M unit) : M unit := if b then m else ret tt.

(** ** Streams, messages and the collaborators with effects *)

(** The newline and the double quote of the message texts. *)
Definition nl : string := String (ascii_of_nat 10) EmptyString.
Definition dquote : string := String (ascii_of_nat 34) EmptyString.

(** The text of the message for a destination that cannot be opened
    (openscad.cc:329, 341, 359 and 434): the name is put between double
    quotes. *)
Definition cant_open_for_export (name : string) : string :=
  "Can't open file " ++ dquote ++ name ++ dquote ++ " for export".

(** The text of the dimension message of [checkAndExport]
    (openscad.cc:228), with [%d] filled in. *)
Definition not_a_dimension_object (nd : N) : string :=
  "Current top level object is not a " ++ Str.decimal nd ++ "D object.".

Section Pipeline.

Variable env : Env.

(** [std::ofstream s(name)]: the file is created or truncated when the
    path can be opened for writing; the open is never an error by
    itself, the stream only reports [is_open]. *)
Definition ofstream_open (name : string) : M ofstream :=
  let* w := get in
  let p := absolute (current_path w) name in
  let ok := can_create env p in
  modify (record (call_ofstream p ok)) >>
  when ok (modify (fun w => set_files (<[p := EmptyString]> (files w)) w)) >>
  ret (mkOfstream p ok).

(** [s << text]: appended to the file of an open stream, dropped by a
    stream that is not open. *)
Definition write (s : ofstream) (text : string) : M unit :=
  when (is_open s)
    (modify (fun w =>
       set_files (<[stream_path s :=
                      default EmptyString (files w !! stream_path s) ++ text]>
                    (files w)) w)).

(** [std::ifstream ifs(name)] read to its end: the contents, or [None]
    when [!ifs.is_open()]. *)
Definition ifstream_read (name : string) : M (option string) :=
  let* w := get in
  let p := absolute (current_path w) name in
  modify (record (call_ifstream p (non_null (files w !! p)))) >>
  ret (files w !! p).

(** [fs::current_path(p)]. *)
Definition chdir (p : string) : M unit := modify (set_current_path p).

(** [Echostream::output] (openscad.cc:92-95): the message and a newline
    go to the echo stream. *)
Definition Echostream_output (msg : string) (thisp : ofstream) : M unit :=
  write thisp (msg ++ nl).

(** Modelled from the spec: [PRINT]/[PRINTB] and [set_output_handler]
    (printutils.h is not among the sources). The spec calls the [.echo]
    output "captured script echo output": a message goes to the handler
    that [Echostream] installed when there is one, and to the standard
    error stream otherwise. *)
Definition PRINT (msg : string) : M unit :=
  let* w := get in
  match outputhandler w with
  | Some thisp => Echostream_output msg thisp
  | None => modify (add_stderr msg)
  end.

Fixpoint PRINT_all (msgs : list string) : M unit :=
  match msgs with
  | [] => ret tt
  | m :: r => PRINT m >> PRINT_all r
  end.

(** [new Echostream(filename)] (openscad.cc:89-91): open the file, then
    install the stream as the output handler. *)
Definition new_Echostream (filename : string) : M ofstream :=
  let* s := ofstream_open filename in
  modify (set_outputhandler (Some s)) >>
  ret s.

(** Modelled from the spec: [handle_dep] (handle_dep.h is not among the
    sources): "registers path in the DependencySet exactly once even if
    called multiple times". *)
Definition handle_dep (filename : string) : M unit :=
  let* w := get in
  let p := absolute (current_path w) filename in
  modify (record (call_handle_dep p)) >>
  modify (add_dependency p).

(** [root_module->handleDependencies()]. *)
Fixpoint handleDependencies (paths : list string) : M unit :=
  match paths with
  | [] => ret tt
  | p :: r => modify (add_dependency p) >> handleDependencies r
  end.

(** Modelled from the spec: [write_deps] (handle_dep.h is not among the
    sources): "writes a single build rule binding generatedOutputPath to
    every path in dependencySet"; the result is 0 when the rule file
    cannot be opened. *)
Definition write_deps (deps_out geom_out : string) : M Z :=
  modify (record (call_write_deps deps_out geom_out)) >>
  let* w := get in
  let p := absolute (current_path w) deps_out in
  if can_create env p then
    modify (fun w => set_files
              (<[p := deps_rule env geom_out (elements (dependencies w))]> (files w)) w) >>
    ret 1%Z
  else ret 0%Z.

(** Modelled from the spec: [exportFileByName] (export.h is not among
    the sources): "opening the destination file (fails with IOError if
    unwritable, logged and the run aborts with a non-zero status rather
    than partially writing), performing the WorkingDirectoryGuard restore
    so the destination path is resolved relative to the invoker's original
    directory, and delegating to the matching writer". The restore is done
    by the caller (openscad.cc:383) before the exports. The result type is
    [void] (the caller at openscad.cc:231 gets nothing back), so the abort
    is the end of the run, with the status 1 that the spec gives for an
    unwritable output; the log is the message of the sibling blocks. *)
Definition exportFileByName (root_geom : Geometry) (format : FileFormat)
    (name2open name2display : string) : M unit :=
  modify (record (call_exportFileByName format name2open)) >>
  let* fstream := ofstream_open name2open in
  if negb (is_open fstream) then
    PRINT (cant_open_for_export name2display) >>
    return_ 1%Z
  else
    write fstream (exportFile env root_geom format).

(** [checkAndExport] (openscad.cc:224-233). [root_geom] is a shared
    pointer: calling [getDimension] through a NULL one is undefined. *)
Definition checkAndExport (root_geom : option Geometry) (nd : N)
    (format : FileFormat) (filename : string) : M bool :=
  match root_geom with
  | None => undefined
  | Some g =>
      if negb (getDimension g =? nd)%N then
        PRINT (not_a_dimension_object nd) >>
        ret false
      else
        exportFileByName g format filename filename >>
        ret true
  end.

(** [if (p) { if (!checkAndExport(root_geom, nd, format, p)) return 1; }]
    (openscad.cc:406-429). *)
Definition export_if (p : option string) (root_geom : option Geometry)
    (nd : N) (format : FileFormat) : M unit :=
  match p with
  | Some f =>
      let* ok := checkAndExport root_geom nd format f in
      if negb ok then return_ 1%Z else ret tt
  | None => ret tt
  end.

(** The text dumps of openscad.cc:325-348 ([.csg] and [.ast]): back to
    the invoker's directory, open, and either report that the file
    cannot be opened or write [text] and a newline from the document
    directory. Nothing is returned in either case. *)
Definition dump_to (name original_path fparent text : string) : M unit :=
  chdir original_path >>
  let* fstream := ofstream_open name in
  if negb (is_open fstream) then
    PRINT (cant_open_for_export name)
  else
    chdir fparent >>
    write fstream (text ++ nl).

(** The [.term] branch (openscad.cc:349-369). *)
Definition term_branch (name original_path : string) (root_node : AbstractNode) : M unit :=
  modify (record (call_evaluateCSGTerm root_node)) >>
  let root_raw_term := evaluateCSGTerm env root_node in
  chdir original_path >>
  let* fstream := ofstream_open name in
  if negb (is_open fstream) then
    PRINT (cant_open_for_export name)
  else
    match root_raw_term with
    | None => write fstream ("No top-level CSG object" ++ nl)
    | Some t => write fstream (term_dump t ++ nl)
    end.

(** The dependency block (openscad.cc:385-404). *)
Definition deps_block (deps_output_file : option string) (o : OutputFiles)
    (output_file : string) : M unit :=
  match deps_output_file with
  | None => ret tt
  | Some deps_out =>
      let* geom_out :=
        match stl_output_file o, off_output_file o, amf_output_file o,
              dxf_output_file o, svg_output_file o, png_output_file o with
        | Some f, _, _, _, _, _ => ret f
        | None, Some f, _, _, _, _ => ret f
        | None, None, Some f, _, _, _ => ret f
        | None, None, None, Some f, _, _ => ret f
        | None, None, None, None, Some f, _ => ret f
        | None, None, None, None, None, Some f => ret f
        | None, None, None, None, None, None =>
            PRINT ("Output file:" ++ output_file ++ nl) >>
            PRINT ("Sorry, don't know how to write deps for that file type. Exiting" ++ nl) >>
            return_ 1%Z
        end in
      let* result := write_deps deps_out geom_out in
      if (result =? 0)%Z then
        PRINT "error writing deps" >> return_ 1%Z
      else ret tt
  end.

(** The raster output (openscad.cc:431-446). *)
Definition png_block (o : OutputFiles) (renderer : Render.type)
    (root_geom : option Geometry) (root_node : AbstractNode) (camera : Camera) : M unit :=
  match png_output_file o with
  | None => ret tt
  | Some f =>
      let* fstream := ofstream_open f in
      if negb (is_open fstream) then
        PRINT (cant_open_for_export f)
      else
        modify (record (call_export_png renderer)) >>
        if Render.eqb renderer Render.CGAL then
          match root_geom with
          | None => undefined
          | Some g => write fstream (export_png env g camera)
          end
        else if Render.eqb renderer Render.THROWNTOGETHER then
          write fstream (export_png_with_throwntogether env root_node camera)
        else
          write fstream (export_png_with_opencsg env root_node camera)
  end.

(** The last branch of the dispatch (openscad.cc:370-451). *)
Definition geometry_branch (deps_output_file : option string) (o : OutputFiles)
    (output_file original_path : string) (renderer : Render.type)
    (root_node : AbstractNode) (camera : Camera) : M unit :=
  if ENABLE_CGAL env then
    let* root_geom :=
      if (non_null (echo_output_file o) || non_null (png_output_file o))
         && negb (Render.eqb renderer Render.CGAL)
      then
        (* echo or OpenCSG png -> don't necessarily need CGALMesh evaluation *)
        ret None
      else
        modify (record (call_evaluateGeometry root_node)) >>
        match evaluateGeometry env root_node with
        | None => PRINT "No top-level object found." >> return_ 1%Z
        | Some g => ret (Some g)
        end in
    chdir original_path >>
    deps_block deps_output_file o output_file >>
    export_if (stl_output_file o) root_geom 3%N OPENSCAD_STL >>
    export_if (off_output_file o) root_geom 3%N OPENSCAD_OFF >>
    export_if (amf_output_file o) root_geom 3%N OPENSCAD_AMF >>
    export_if (dxf_output_file o) root_geom 2%N OPENSCAD_DXF >>
    export_if (svg_output_file o) root_geom 2%N OPENSCAD_SVG >>
    png_block o renderer root_geom root_node camera
  else
    PRINT ("OpenSCAD has been compiled without CGAL support!" ++ nl) >>
    return_ 1%Z.

(** The text handed to the parser (openscad.cc:300-301): the script, a
    newline, and the assignments of the command line. *)
Definition script_text (contents : string) : string :=
  contents ++ nl ++ commandline_commands env.

(** The directory of the script (openscad.cc:302-303 and 311-312). *)
Definition document_path (cwd filename : string) : string :=
  parent_path (absolute cwd filename).

(** What the script prints while it is instantiated (openscad.cc:317). *)
Definition echoed (root_module : FileModule) : list string :=
  snd (instantiate env root_module).

(** The root of the tree (openscad.cc:317-321): the node with the
    explicit root tag when there is one, the instantiated group
    otherwise. *)
Definition root_node_of (root_module : FileModule) : AbstractNode :=
  let absolute_root_node := fst (instantiate env root_module) in
  default absolute_root_node (find_root_tag env absolute_root_node).

(** [cmdline] (openscad.cc:235-454). [output_file] is not NULL: [main]
    calls [cmdline] only with an output file. *)
Definition cmdline (deps_output_file : option string) (filename : string)
    (camera : Camera) (output_file : string) (original_path : string)
    (renderer : Render.type) : M Z :=
  let suffix := Str.to_lower (Str.extension_str output_file) in
  let* o :=
    match assign_output_file suffix output_file with
    | Some o => ret o
    | None =>
        PRINT ("Unknown suffix for output file " ++ output_file ++ nl) >>
        return_ 1%Z
    end in
  let* echostream :=
    match echo_output_file o with
    | Some f => let* s := new_Echostream f in ret (Some s)
    | None => ret None
    end in
  handle_dep filename >>
  let* ifs := ifstream_read filename in
  let* contents :=
    match ifs with
    | Some t => ret t
    | None =>
        PRINT ("Can't open input file '" ++ filename ++ "'!" ++ nl) >>
        return_ 1%Z
    end in
  let text := script_text contents in
  let* w := get in
  let parentpath := document_path (current_path w) filename in
  modify (record call_parse) >>
  let* root_module :=
    match parse env text parentpath with
    | Some m => ret m
    | None =>
        PRINT ("Can't parse file '" ++ filename ++ "'!" ++ nl) >>
        return_ 1%Z
    end in
  handleDependencies (module_dependencies root_module) >>
  let fparent := parentpath in
  chdir fparent >>
  modify (record call_instantiate) >>
  PRINT_all (echoed root_module) >>
  (* Do we have an explicit root node (! modifier)? *)
  let root_node := root_node_of root_module in
  match csg_output_file o, ast_output_file o, term_output_file o with
  | Some f, _, _ => dump_to f original_path fparent (getString env root_node)
  | None, Some f, _ => dump_to f original_path fparent (module_dump root_module)
  | None, None, Some f => term_branch f original_path root_node
  | None, None, None =>
      geometry_branch deps_output_file o output_file original_path renderer
                      root_node camera
  end >>
  (* delete root_node; *)
  ret 0%Z.

(** The exit status and the final world of a run. [None] stands for a
    run that dereferenced a NULL pointer. *)
Definition run (deps_output_file : option string) (filename : string)
    (camera : Camera) (output_file : string) (original_path : string)
    (renderer : Render.type) (w : World) : option Z * World :=
  match cmdline deps_output_file filename camera output_file original_path renderer w with
  | (Next n, w') => (Some n, w')
  | (Return n, w') => (Some n, w')
  | (Undefined, w') => (None, w')
  end.

End Pipeline.

(** ** Sample collaborators and worlds *)

(** A script with one top-level object that echoes one line. *)
Definition sample_module : FileModule :=
  mkFileModule "cube(1);" ["/lib/shapes.scad"].

(** Collaborators that parse every text to [sample_module]; whether files
    can be created, what the two evaluators return and whether the build
    has CGAL are left open. *)
Definition sample_env (cgal writable : bool) (geom : option Geometry)
    (term : option CSGTerm) : Env :=
  {| ENABLE_CGAL := cgal;
     commandline_commands := EmptyString;
     can_create := fun _ => writable;
     parse := fun _ _ => Some sample_module;
     instantiate := fun _ => (mkNode 0, ["ECHO: 1"]);
     find_root_tag := fun _ => None;
     getString := fun _ => "group() { cube(1); }";
     evaluateCSGTerm := fun _ => term;
     evaluateGeometry := fun _ => geom;
     exportFile := fun _ _ => "solid";
     export_png := fun _ _ => "PNG-cgal";
     export_png_with_throwntogether := fun _ _ => "PNG-tt";
     export_png_with_opencsg := fun _ _ => "PNG-opencsg";
     deps_rule := fun out _ => out ++ ":" |}.

(** Collaborators whose parser rejects every text. *)
Definition failing_parser_env : Env :=
  {| ENABLE_CGAL := true;
     commandline_commands := EmptyString;
     can_create := fun _ => true;
     parse := fun _ _ => None;
     instantiate := fun _ => (mkNode 0, []);
     find_root_tag := fun _ => None;
     getString := fun _ => EmptyString;
     evaluateCSGTerm := fun _ => None;
     evaluateGeometry := fun _ => None;
     exportFile := fun _ _ => EmptyString;
     export_png := fun _ _ => EmptyString;
     export_png_with_throwntogether := fun _ _ => EmptyString;
     export_png_with_opencsg := fun _ _ => EmptyString;
     deps_rule := fun _ _ => EmptyString |}.

Definition sample_camera : Camera := mkCamera 512 512.

(** The state of a process started in /home/u, next to the script
    /home/u/in.scad: nothing printed, no handler, nothing recorded. *)
Definition sample_world : World :=
  {| files := {[ "/home/u/in.scad" := "echo(1); cube(1);" ]};
     current_path := "/home/u";
     stderr := [];
     outputhandler := None;
     dependencies := ∅;
     journal := [] |}.

(** The same process without the script. *)
Definition empty_world : World :=
  {| files := ∅;
     current_path := "/home/u";
     stderr := [];
     outputhandler := None;
     dependencies := ∅;
     journal := [] |}.

(** A process started in the root directory, next to the script
    /v_in.scad. *)
Definition root_world : World :=
  {| files := {[ "/v_in.scad" := "cube(1);" ]};
     current_path := "/";
     stderr := [];
     outputhandler := None;
     dependencies := ∅;
     journal := [] |}.

(** ** Observations on a run *)

Definition is_evaluateGeometry (c : Call) : bool :=
  match c with call_evaluateGeometry _ => true | _ => false end.

Definition is_evaluateCSGTerm (c : Call) : bool :=
  match c with call_evaluateCSGTerm _ => true | _ => false end.

Definition is_exportFileByName (c : Call) : bool :=
  match c with call_exportFileByName _ _ => true | _ => false end.

(** How often the boundary-representation evaluator was invoked. *)
Definition geometry_evaluations (j : list Call) : nat :=
  length (List.filter is_evaluateGeometry j).

(** How often the boolean-term evaluator was invoked by [cmdline]. *)
Definition term_evaluations (j : list Call) : nat :=
  length (List.filter is_evaluateCSGTerm j).

(** How often [exportFileByName] was invoked. *)
Definition exports (j : list Call) : nat :=
  length (List.filter is_exportFileByName j).

(** The suffixes of the solid and drawing exports. *)
Definition solid_suffixes : list string := [".stl"; ".off"; ".amf"].
Definition drawing_suffixes : list string := [".dxf"; ".svg"].

(** The exporter behind a suffix (openscad.cc:406-429): the dimension it
    requires and the format it is called with. *)
Definition exporter_of_suffix (suffix : string) : option (N * FileFormat) :=
  if String.eqb suffix ".stl" then Some (3%N, OPENSCAD_STL)
  else if String.eqb suffix ".off" then Some (3%N, OPENSCAD_OFF)
  else if String.eqb suffix ".amf" then Some (3%N, OPENSCAD_AMF)
  else if String.eqb suffix ".dxf" then Some (2%N, OPENSCAD_DXF)
  else if String.eqb suffix ".svg" then Some (2%N, OPENSCAD_SVG)
  else None.

(** The state [main] hands to [cmdline]: no output handler installed and
    nothing recorded so far. *)
Definition at_start (w : World) : Prop :=
  outputhandler w = None /\ journal w = [].

Definition is_ofstream (c : Call) : bool :=
  match c with call_ofstream _ _ => true | _ => false end.

(** How many output streams were opened. *)
Definition streams_opened (j : list Call) : nat :=
  length (List.filter is_ofstream j).

(** A 2-D object exported to a solid format, in a build with CGAL where
    every file can be created. *)
Definition flat_to_stl_run : option Z * World :=
  run (sample_env true true (Some (mkGeometry 2)) None) None "in.scad"
      sample_camera "out.stl" "/home/u" Render.OPENCSG sample_world.

(** A successful [.csg] run with a dependency file requested. *)
Definition csg_with_deps_run : option Z * World :=
  run (sample_env true true (Some (mkGeometry 3)) (Some (mkCSGTerm "cube")))
      (Some "out.d") "in.scad" sample_camera "out.csg" "/home/u"
      Render.OPENCSG sample_world.

(** A successful [.csg] run. *)
Definition csg_run : option Z * World :=
  run (sample_env true true (Some (mkGeometry 3)) (Some (mkCSGTerm "cube")))
      None "in.scad" sample_camera "out.csg" "/home/u" Render.OPENCSG sample_world.

(** An [.echo] run in full-render mode. *)
Definition echo_full_render_run : option Z * World :=
  run (sample_env true true (Some (mkGeometry 3)) None)
      None "in.scad" sample_camera "out.echo" "/home/u" Render.CGAL sample_world.

(** A [.csg] run whose destination cannot be opened. *)
Definition unwritable_csg_run : option Z * World :=
  run (sample_env true false (Some (mkGeometry 3)) None)
      None "in.scad" sample_camera "out.csg" "/home/u" Render.OPENCSG sample_world.

(** A 3-D object exported to a solid format whose destination cannot be
    created. *)
Definition solid_to_unwritable_stl_run : option Z * World :=
  run (sample_env true false (Some (mkGeometry 3)) None) None "in.scad"
      sample_camera "out.stl" "/home/u" Render.OPENCSG sample_world.

(** A [.term] run without a top-level term whose destination cannot be
    created. *)
Definition empty_term_unwritable_run : option Z * World :=
  run (sample_env true false None None) None "in.scad"
      sample_camera "out.term" "/home/u" Render.OPENCSG sample_world.

(** The suffixes for which the dependency block knows a rule. *)
Definition deps_suffixes : list string :=
  [".stl"; ".off"; ".amf"; ".dxf"; ".svg"; ".png"].

(** ** Further observations on a run *)


(** What [Echostream::output] leaves in the echo file for a list of
    messages: each message followed by a newline, in order. *)
Fixpoint echo_lines (msgs : list string) : string :=
  match msgs with
  | [] => EmptyString
  | m :: r => (m ++ nl) ++ echo_lines r
  end.

(** The same collaborators in a build with or without CGAL. *)
Definition with_ENABLE_CGAL (cgal : bool) (env : Env) : Env :=
  mkEnv cgal (commandline_commands env) (can_create env) (parse env)
        (instantiate env) (find_root_tag env) (getString env)
        (evaluateCSGTerm env) (evaluateGeometry env) (exportFile env)
        (export_png env) (export_png_with_throwntogether env)
        (export_png_with_opencsg env) (deps_rule env).

(** ** The process around [cmdline]: options, camera, [main] *)

(** The camera as far as openscad.cc touches it ([Camera.h] is not among
    the sources): its type, its projection, the two flags and the image
    size. Its placement is kept by the collaborators [Camera::setup] and
    [Camera::gimbalDefaultTranslate]. *)
Module Cam.
Inductive CameraType := NONE | GIMBAL | VECTOR.
Inductive ProjectionType := ORTHOGONAL | PERSPECTIVE.
Record t := mk {
  type : CameraType;
  projection : ProjectionType;
  viewall : bool;
  autocenter : bool;
  pixel_width : Z;
  pixel_height : Z
}.
Definition set_viewall (b : bool) (c : t) : t :=
  mk (type c) (projection c) b (autocenter c) (pixel_width c) (pixel_height c).
Definition set_autocenter (b : bool) (c : t) : t :=
  mk (type c) (projection c) (viewall c) b (pixel_width c) (pixel_height c).
Definition set_projection (p : ProjectionType) (c : t) : t :=
  mk (type c) p (viewall c) (autocenter c) (pixel_width c) (pixel_height c).
Definition set_pixels (w h : Z) (c : t) : t :=
  mk (type c) (projection c) (viewall c) (autocenter c) w h.
End Cam.

(** The [po::variables_map] after [po::store] (openscad.cc:616-653): a
    flag is [vm.count(name)], a value is [None] when the option is absent,
    a list is empty when it is absent. *)
Record variables_map := mkVM {
  vm_help : bool;
  vm_version : bool;
  vm_info : bool;
  vm_render : bool;
  vm_preview : option string;
  vm_csglimit : option N;
  vm_camera : option string;
  vm_autocenter : bool;
  vm_viewall : bool;
  vm_imgsize : option string;
  vm_projection : option string;
  vm_debug : option string;
  vm_o : option string;
  vm_s : option string;
  vm_x : option string;
  vm_d : option string;
  vm_m : option string;
  vm_D : list string;
  vm_enable : list string;
  vm_input_file : list string
}.

(** The build and the collaborators of [main]. Floating point is not
    modelled: a camera parameter is kept as the token it is cast from, and
    [is_double] says whether [lexical_cast<double>] accepts the token. *)
Record Platform := mkPlatform {
  OPENSCAD_QTGUI : bool;                     (* #ifdef OPENSCAD_QTGUI *)
  Q_OS_X11 : bool;
  has_DISPLAY : bool;                        (* getenv("DISPLAY") != 0 *)
  ENABLE_MDI : bool;
  ENABLE_EXPERIMENTAL : bool;
  DEBUG : bool;
  OPENSCAD_VERSION : string;
  LibraryInfo_info : string;
  OffscreenView_new : Z + string;            (* the int thrown, or the renderer info *)
  qt_gui : list string -> string -> World -> Z * World;   (* the Qt session *)
  Camera_new : Cam.t;                        (* Camera() *)
  Camera_setup : list string -> Cam.t -> Cam.t;
  gimbalDefaultTranslate : Cam.t -> Cam.t;
  img_width : Z;                             (* RenderSettings::inst()->img_width *)
  img_height : Z;
  is_double : string -> bool;
  lexical_cast_int : string -> option Z      (* None: bad_lexical_cast *)
}.

(** The process: the world of [cmdline], the standard output and the
    globals [main] writes. *)
Record Process := mkProcess {
  world : World;
  stdout : list string;
  debug : string;                            (* OpenSCAD::debug *)
  openCSGTermLimit : N;
  make_command : option string;
  commands : string;                         (* commandline_commands *)
  currentdir : string;
  features : list string                     (* Feature::enable_feature *)
}.

Definition set_world (w : World) (p : Process) : Process :=
  mkProcess w (stdout p) (debug p) (openCSGTermLimit p) (make_command p)
            (commands p) (currentdir p) (features p).
Definition add_stdout (s : string) (p : Process) : Process :=
  mkProcess (world p) (stdout p ++ [s]) (debug p) (openCSGTermLimit p) (make_command p)
            (commands p) (currentdir p) (features p).
Definition set_debug (d : string) (p : Process) : Process :=
  mkProcess (world p) (stdout p) d (openCSGTermLimit p) (make_command p)
            (commands p) (currentdir p) (features p).
Definition set_openCSGTermLimit (n : N) (p : Process) : Process :=
  mkProcess (world p) (stdout p) (debug p) n (make_command p)
            (commands p) (currentdir p) (features p).
Definition set_make_command (m : option string) (p : Process) : Process :=
  mkProcess (world p) (stdout p) (debug p) (openCSGTermLimit p) m
            (commands p) (currentdir p) (features p).
Definition set_commands (c : string) (p : Process) : Process :=
  mkProcess (world p) (stdout p) (debug p) (openCSGTermLimit p) (make_command p)
            c (currentdir p) (features p).
Definition set_currentdir (d : string) (p : Process) : Process :=
  mkProcess (world p) (stdout p) (debug p) (openCSGTermLimit p) (make_command p)
            (commands p) d (features p).
Definition add_feature (f : string) (p : Process) : Process :=
  mkProcess (world p) (stdout p) (debug p) (openCSGTermLimit p) (make_command p)
            (commands p) (currentdir p) (features p ++ [f]).

(** [Feature::enable_feature] for each [--enable] (openscad.cc:713-717). *)
Definition enable_features (fs : list string) (p : Process) : Process :=
  fold_left (fun q f => add_feature f q) fs p.

(** How the process ends before [main] returns. *)
Inductive Ended :=
  | exited (status : Z)      (* exit(status) *)
  | terminated               (* an exception nobody catches *)
  | faulted.                 (* a NULL or out-of-range access *)

(** The monad of [main]: state and the end of the process. *)
Definition Proc (A : Type) : Type := Process -> (Ended + A) * Process.

Definition retp {A} (a : A) : Proc A := fun p => (inr a, p).
Definition bindp {A B} (m : Proc A) (k : A -> Proc B) : Proc B :=
  fun p =>
    match m p with
    | (inr a, p') => k a p'
    | (inl e, p') => (inl e, p')
    end.
Definition end_ {A} (e : Ended) : Proc A := fun p => (inl e, p).
Definition exit_ {A} (status : Z) : Proc A := end_ (exited status).
Definition getp : Proc Process := fun p => (inr p, p).
Definition modifyp (f : Process -> Process) : Proc unit := fun p => (inr tt, f p).

Notation "'let!' x ':=' c 'in' k" := (bindp c (fun x => k))
  (at level 10, x pattern, c at level 100, k at level 200).
Notation "c '>>>' k" := (bindp c (fun _ => k))
  (at level 100, k at level 200, right associativity).

Definition whenp (b : bool) (m : Proc unit) : Proc unit := if b then m else retp tt.

(** [PRINT] in the process: the message goes where [PRINT] sends it in the
    world. *)
Definition print (msg : string) : Proc unit :=
  modifyp (fun p => set_world (snd (PRINT msg (world p))) p).

Fixpoint print_all (msgs : list string) : Proc unit :=
  match msgs with
  | [] => retp tt
  | m :: r => print m >>> print_all r
  end.

(** [std::cout << s]. *)
Definition cout (s : string) : Proc unit := modifyp (add_stdout s).

(** The backslash of the usage text. *)
Definition backslash : string := String (ascii_of_nat 92) EmptyString.

(** [tabstr] of [help] (openscad.cc:103-106): [n] blanks. *)
Fixpoint blanks (n : nat) : string :=
  match n with
  | O => EmptyString
  | S k => String " " (blanks k)
  end.

Definition tabstr (progname : string) : string :=
  blanks (String.length progname + 8).

(** The lines of the usage text after the first (openscad.cc:109-125),
    without the tab in front and the line end behind. *)
Definition usage_continuation (experimental debug_build : bool) : list string :=
  [ "[ -m make_command ] [ -D var=val [..] ] ";
    "[ --version ] [ --info ] ";
    "[ --camera=translatex,y,z,rotx,y,z,dist | ";
    "  --camera=eyex,y,z,centerx,y,z ] ";
    "[ --autocenter ] ";
    "[ --viewall ] ";
    "[ --imgsize=width,height ] [ --projection=(o)rtho|(p)ersp] ";
    "[ --render | --preview[=throwntogether] ] ";
    "[ --csglimit=num ]" ++ (if experimental then " [ --enable=<feature> ]" else EmptyString) ]
  ++ (if debug_build then ["[ --debug=module ] "] else []).

(** The text [help] prints (openscad.cc:108-126): [%1%] is the program
    name, [%2%] the tab; every line but the last ends in a backslash. *)
Definition usage (experimental debug_build : bool) (progname : string) : string :=
  ("Usage: " ++ progname ++ " [ -o output_file [ -d deps_file ] ]" ++ backslash ++ nl
   ++ fold_right (fun line rest => tabstr progname ++ line ++ backslash ++ nl ++ rest)
                 (tabstr progname ++ "filename" ++ nl)
                 (usage_continuation experimental debug_build))%string.

(** [%i] of an [int]. *)
Definition decimal_int (z : Z) : string :=
  if (z <? 0)%Z then "-" ++ Str.decimal (Z.abs_N z) else Str.decimal (Z.to_N z).

(** [boost::split(strs, s, is_any_of(sep))]: the fields between the
    separators, empty fields included; a string without a separator is one
    field. *)
Fixpoint split (sep : ascii) (s : string) : list string :=
  match s with
  | EmptyString => [EmptyString]
  | String c r =>
      if Ascii.eqb c sep then EmptyString :: split sep r
      else match split sep r with
           | t :: ts => String c t :: ts
           | [] => [String c EmptyString]
           end
  end.

(** How often a character occurs in a string. *)
Fixpoint count_char (c : ascii) (s : string) : nat :=
  match s with
  | EmptyString => O
  | String d r => (if Ascii.eqb d c then 1 else 0) + count_char c r
  end.

(** What [get_camera] comes to: a camera, the messages before [exit(1)],
    or a [bad_lexical_cast] that leaves the function. *)
Inductive Parsed (A : Type) :=
  | parsed (a : A)
  | rejected (messages : list string)
  | thrown.
Arguments parsed {A} a.
Arguments rejected {A} messages.
Arguments thrown {A}.

Definition and_then {A B} (r : Parsed A) (k : A -> Parsed B) : Parsed B :=
  match r with
  | parsed a => k a
  | rejected m => rejected m
  | thrown => thrown
  end.

Notation "'let?' x ':=' c 'in' k" := (and_then c (fun x => k))
  (at level 10, x pattern, c at level 100, k at level 200).

(** The renderer [main] selects (openscad.cc:669-674). *)
Definition select_renderer (vm : variables_map) : Render.type :=
  let renderer := Render.OPENCSG in
  let renderer := if vm_render vm then Render.CGAL else renderer in
  match vm_preview vm with
  | Some s => if String.eqb s "throwntogether" then Render.THROWNTOGETHER else renderer
  | None => renderer
  end.

(** What the [-D] options add to [commandline_commands]
    (openscad.cc:706-711). *)
Fixpoint definitions (cmds : list string) : string :=
  match cmds with
  | [] => EmptyString
  | cmd :: r => (cmd ++ ";" ++ nl) ++ definitions r
  end.

(** The collaborators of [cmdline] with another [commandline_commands]. *)
Definition with_commands (cc : string) (env : Env) : Env :=
  mkEnv (ENABLE_CGAL env) cc (can_create env) (parse env)
        (instantiate env) (find_root_tag env) (getString env)
        (evaluateCSGTerm env) (evaluateGeometry env) (exportFile env)
        (export_png env) (export_png_with_throwntogether env)
        (export_png_with_opencsg env) (deps_rule env).

(** The camera as [cmdline] and the rasterizers are given it. *)
Definition camera_of (c : Cam.t) : Camera :=
  mkCamera (Cam.pixel_width c) (Cam.pixel_height c).

Section Process.

Variable plat : Platform.
Variable env : Env.

(** [get_camera] (openscad.cc:155-215). *)
Definition get_camera (vm : variables_map) : Parsed Cam.t :=
  let camera := Camera_new plat in
  let? camera :=
    match vm_camera vm with
    | Some s =>
        let strs := split "," s in
        if (length strs =? 6)%nat || (length strs =? 7)%nat then
          if forallb (is_double plat) strs
          then parsed (Camera_setup plat strs camera)
          else thrown
        else
          rejected ["Camera setup requires either 7 numbers for Gimbal Camera" ++ nl;
                    "or 6 numbers for Vector Camera" ++ nl]
    | None => parsed camera
    end in
  let camera :=
    match Cam.type camera with
    | Cam.GIMBAL => gimbalDefaultTranslate plat camera
    | _ => camera
    end in
  let camera := if vm_viewall vm then Cam.set_viewall true camera else camera in
  let camera := if vm_autocenter vm then Cam.set_autocenter true camera else camera in
  let? camera :=
    match vm_projection vm with
    | Some proj =>
        if String.eqb proj "o" || String.eqb proj "ortho" || String.eqb proj "orthogonal"
        then parsed (Cam.set_projection Cam.ORTHOGONAL camera)
        else if String.eqb proj "p" || String.eqb proj "perspective"
        then parsed (Cam.set_projection Cam.PERSPECTIVE camera)
        else rejected ["projection needs to be 'o' or 'p' for ortho or perspective" ++ nl]
    | None => parsed camera
    end in
  let w := img_width plat in
  let h := img_height plat in
  let? (w, h) :=
    match vm_imgsize vm with
    | Some s =>
        let strs := split "," s in
        if negb (length strs =? 2)%nat then
          rejected ["Need 2 numbers for imgsize" ++ nl]
        else
          match lexical_cast_int plat (nth 0 strs EmptyString) with
          | None => thrown
          | Some w =>
              match lexical_cast_int plat (nth 1 strs EmptyString) with
              | None => thrown
              | Some h => parsed (w, h)
              end
          end
    | None => parsed (w, h)
    end in
  parsed (Cam.set_pixels w h camera).

(** [help] (openscad.cc:101-128). *)
Definition help {A} (progname : string) : Proc A :=
  print (usage (ENABLE_EXPERIMENTAL plat) (DEBUG plat) progname) >>>
  exit_ 1%Z.

(** [version] (openscad.cc:132-136). *)
Definition version {A} : Proc A :=
  print ("OpenSCAD version " ++ OPENSCAD_VERSION plat ++ nl) >>>
  exit_ 1%Z.

(** [info] (openscad.cc:138-153). *)
Definition info {A} : Proc A :=
  cout (LibraryInfo_info plat ++ nl ++ nl) >>>
  match OffscreenView_new plat with
  | inl error =>
      print ("Can't create OpenGL OffscreenView. Code: " ++ decimal_int error
             ++ ". Exiting." ++ nl) >>>
      exit_ 1%Z
  | inr renderer_info =>
      cout (renderer_info ++ nl) >>>
      exit_ 0%Z
  end.

(** [QtUseGUI] (openscad.cc:485-498 and 587). *)
Definition QtUseGUI : bool :=
  if OPENSCAD_QTGUI plat then
    if Q_OS_X11 plat then has_DISPLAY plat else true
  else false.

(** [gui]: the Qt session (openscad.cc:500-585), a collaborator, or the
    stand-in of a build without Qt (openscad.cc:588-592). *)
Definition gui (inputFiles : list string) (original_path : string) : Proc Z :=
  if OPENSCAD_QTGUI plat then
    fun p =>
      let (rc, w') := qt_gui plat inputFiles original_path (world p) in
      (inr rc, set_world w' p)
  else
    print ("Error: compiled without QT, but trying to run GUI" ++ nl) >>>
    retp 1%Z.

(** One of the options [-o], [-s], [-x], [-d] (openscad.cc:680-699): the
    deprecation note if there is one, [help] when the value is already
    set, then the new value. *)
Definition take_option (progname : string) (current given : option string)
    (deprecation : option string) : Proc (option string) :=
  match given with
  | None => retp current
  | Some value =>
      match deprecation with
      | Some note => print note
      | None => retp tt
      end >>>
      whenp (non_null current) (help progname) >>>
      retp (Some value)
  end.

(** [--csglimit] (openscad.cc:676-678). *)
Definition csglimit_option (vm : variables_map) : Proc unit :=
  match vm_csglimit vm with
  | Some n => modifyp (set_openCSGTermLimit n)
  | None => retp tt
  end.

(** [--enable] in a build with the experimental features
    (openscad.cc:712-718). *)
Definition enable_option (vm : variables_map) : Proc unit :=
  whenp (ENABLE_EXPERIMENTAL plat) (modifyp (enable_features (vm_enable vm))).

(** [rc = cmdline(...)] (openscad.cc:744), with the commands collected so
    far. *)
Definition call_cmdline (deps_output_file : option string) (filename : string)
    (camera : Cam.t) (output_file original_path : string) (renderer : Render.type)
    : Proc Z :=
  fun p =>
    match run (with_commands (commands p) env) deps_output_file filename
              (camera_of camera) output_file original_path renderer (world p) with
    | (Some rc, w') => (inr rc, set_world w' p)
    | (None, w') => (inl faulted, set_world w' p)
    end.

(** [main] (openscad.cc:595-757). [args] is what [po::store] gives: the
    text of the exception it throws, or the map of the options. *)
Definition main (progname : string) (args : string + variables_map) : Proc Z :=
  let! p0 := getp in
  let original_path := current_path (world p0) in
  let! vm :=
    match args with
    | inr vm => retp vm
    | inl what => print (what ++ nl) >>> help progname
    end in
  modifyp (set_debug EmptyString) >>>
  match vm_debug vm with
  | Some d => modifyp (set_debug d) >>> print ("Debug on. --debug=" ++ d)
  | None => retp tt
  end >>>
  whenp (vm_help vm) (help progname) >>>
  whenp (vm_version vm) version >>>
  whenp (vm_info vm) info >>>
  let renderer := select_renderer vm in
  csglimit_option vm >>>
  let! output_file := take_option progname None (vm_o vm) None in
  let! output_file :=
    take_option progname output_file (vm_s vm)
      (Some ("DEPRECATED: The -s option is deprecated. Use -o instead." ++ nl)) in
  let! output_file :=
    take_option progname output_file (vm_x vm)
      (Some ("DEPRECATED: The -x option is deprecated. Use -o instead." ++ nl)) in
  let! deps_output_file := take_option progname None (vm_d vm) None in
  match vm_m vm with
  | Some m =>
      let! p := getp in
      whenp (non_null (make_command p)) (help progname) >>>
      modifyp (set_make_command (Some m))
  | None => retp tt
  end >>>
  modifyp (fun p => set_commands (commands p ++ definitions (vm_D vm)) p) >>>
  enable_option vm >>>
  let inputFiles := vm_input_file vm in
  whenp (negb (ENABLE_MDI plat) && (1 <? length inputFiles)%nat) (help progname) >>>
  modifyp (fun p => set_currentdir (current_path (world p)) p) >>>
  let! camera :=
    match get_camera vm with
    | parsed c => retp c
    | rejected msgs => print_all msgs >>> exit_ 1%Z
    | thrown => end_ terminated
    end in
  let cmdlinemode := non_null output_file in
  whenp (cmdlinemode && (length inputFiles =? 0)%nat) (help progname) >>>
  let! rc :=
    match output_file with
    | Some out =>
        match inputFiles with
        | first :: _ =>
            call_cmdline deps_output_file first camera out original_path renderer
        | [] => end_ faulted
        end
    | None =>
        if QtUseGUI then gui inputFiles original_path
        else
          print ("Requested GUI mode but can't open display!" ++ nl) >>>
          help progname
    end in
  retp rc.

End Process.

(** The camera option is absent, or has six or seven fields that are all
    numbers. *)
Definition camera_option_accepted (plat : Platform) (vm : variables_map) : Prop :=
  forall s, vm_camera vm = Some s ->
    (count_char "," s = 5%nat \/ count_char "," s = 6%nat)
    /\ forallb (is_double plat) (split "," s) = true.

(** The projection option is absent or one of the five spellings. *)
Definition projection_option_accepted (vm : variables_map) : Prop :=
  forall proj, vm_projection vm = Some proj ->
    In proj ["o"; "ortho"; "orthogonal"; "p"; "perspective"].

(** The output file when exactly one of [-o], [-s], [-x] is given. *)
Definition the_output_option (vm : variables_map) : option string :=
  match vm_o vm, vm_s vm, vm_x vm with
  | Some f, None, None => Some f
  | None, Some f, None => Some f
  | None, None, Some f => Some f
  | _, _, _ => None
  end.

(** How many of [-o], [-s], [-x] are given. *)
Definition output_options_given (vm : variables_map) : nat :=
  (if non_null (vm_o vm) then 1 else 0) + (if non_null (vm_s vm) then 1 else 0)
  + (if non_null (vm_x vm) then 1 else 0).

(** None of [--help], [--version], [--info]. *)
Definition no_information_option (vm : variables_map) : Prop :=
  vm_help vm = false /\ vm_version vm = false /\ vm_info vm = false.

(** What [main] prints before it looks at the files: the debug note and
    the deprecation notes of [-s] and [-x]. *)
Definition notes (vm : variables_map) : list string :=
  (match vm_debug vm with
   | Some d => [("Debug on. --debug=" ++ d)%string]
   | None => []
   end
   ++ (if non_null (vm_s vm)
       then [("DEPRECATED: The -s option is deprecated. Use -o instead." ++ nl)%string] else [])
   ++ (if non_null (vm_x vm)
       then [("DEPRECATED: The -x option is deprecated. Use -o instead." ++ nl)%string]
       else []))%list.

(** The newline character, and a text cut into its lines. *)
Definition newline : ascii := ascii_of_nat 10.
Definition lines_of (text : string) : list string := split newline text.

(** Pieces of text put one after the other in front of [rest]. *)
Definition pieces (ps : list string) (rest : string) : string :=
  fold_right String.append rest ps.

(** ** Sample platform, options and process *)

(** A Qt build on X11 without a display; numbers are the non-empty tokens,
    and only the two sizes 640 and 480 are known integers. *)
Definition sample_platform : Platform :=
  {| OPENSCAD_QTGUI := true;
     Q_OS_X11 := true;
     has_DISPLAY := false;
     ENABLE_MDI := false;
     ENABLE_EXPERIMENTAL := false;
     DEBUG := false;
     OPENSCAD_VERSION := "2014.03";
     LibraryInfo_info := "Boost, CGAL, OpenCSG";
     OffscreenView_new := inr "OpenGL 2.1";
     qt_gui := fun _ _ w => (0%Z, w);
     Camera_new := Cam.mk Cam.NONE Cam.PERSPECTIVE false false 0 0;
     Camera_setup := fun strs c =>
       Cam.mk (if (length strs =? 7)%nat then Cam.GIMBAL else Cam.VECTOR)
              (Cam.projection c) (Cam.viewall c) (Cam.autocenter c)
              (Cam.pixel_width c) (Cam.pixel_height c);
     gimbalDefaultTranslate := fun c => c;
     img_width := 512;
     img_height := 512;
     is_double := fun s => negb (String.eqb s EmptyString);
     lexical_cast_int := fun s =>
       if String.eqb s "640" then Some 640%Z
       else if String.eqb s "480" then Some 480%Z else None |}.

(** Options of a command-line run: one [-D], [--viewall], and what is
    left open here. *)
Definition sample_options (help render : bool)
    (preview camera imgsize projection o s d : option string)
    (inputs : list string) : variables_map :=
  {| vm_help := help; vm_version := false; vm_info := false;
     vm_render := render; vm_preview := preview; vm_csglimit := None;
     vm_camera := camera; vm_autocenter := false; vm_viewall := true;
     vm_imgsize := imgsize; vm_projection := projection; vm_debug := None;
     vm_o := o; vm_s := s; vm_x := None; vm_d := d; vm_m := None;
     vm_D := ["quality=2"]; vm_enable := []; vm_input_file := inputs |}.

(** [--info] alone. *)
Definition info_options : variables_map :=
  {| vm_help := false; vm_version := false; vm_info := true;
     vm_render := false; vm_preview := None; vm_csglimit := None;
     vm_camera := None; vm_autocenter := false; vm_viewall := false;
     vm_imgsize := None; vm_projection := None; vm_debug := None;
     vm_o := None; vm_s := None; vm_x := None; vm_d := None; vm_m := None;
     vm_D := []; vm_enable := []; vm_input_file := [] |}.

(** The process at its start, in [sample_world]. *)
Definition sample_process : Process :=
  {| world := sample_world; stdout := []; debug := EmptyString;
     openCSGTermLimit := 0; make_command := None; commands := EmptyString;
     currentdir := EmptyString; features := [] |}.

(** The options [-o out.png in.scad], with or without [--render]. *)
Definition png_options (render : bool) : variables_map :=
  sample_options false render None None None None (Some "out.png") None None ["in.scad"].


(** * Properties *)

(** ** Lower-casing *)

Lemma to_lower_char_nocase (c d : ascii) :
  Str.same_char_nocase c d = true -> Str.to_lower_char c = Str.to_lower_char d.
Proof.
  unfold Str.same_char_nocase, Str.to_lower_char.
  intros H. apply orb_prop in H. destruct H as [H | H].
  - apply orb_prop in H. destruct H as [H | H].
    + apply Ascii.eqb_eq in H. now subst.
    + apply andb_prop in H. destruct H as [H Hd].
      rewrite H. apply Nat.eqb_eq in Hd.
      apply andb_prop in H. destruct H as [Hlo Hhi].
      apply Nat.leb_le in Hlo. apply Nat.leb_le in Hhi.
      rewrite Hd.
      replace (65 <=? nat_of_ascii c + 32)%nat with true
        by (symmetry; apply Nat.leb_le; lia).
      replace (nat_of_ascii c + 32 <=? 90)%nat with false
        by (symmetry; apply Nat.leb_gt; lia).
      simpl. rewrite <- Hd. apply ascii_nat_embedding.
  - apply andb_prop in H. destruct H as [H Hc].
    rewrite H. apply Nat.eqb_eq in Hc.
    apply andb_prop in H. destruct H as [Hlo Hhi].
    apply Nat.leb_le in Hlo. apply Nat.leb_le in Hhi.
    rewrite Hc.
    replace (65 <=? nat_of_ascii d + 32)%nat with true
      by (symmetry; apply Nat.leb_le; lia).
    replace (nat_of_ascii d + 32 <=? 90)%nat with false
      by (symmetry; apply Nat.leb_gt; lia).
    simpl. rewrite <- Hc. symmetry. apply ascii_nat_embedding.
Qed.

Lemma to_lower_nocase (s t : string) :
  Str.eq_nocase s t = true -> Str.to_lower s = Str.to_lower t.
Proof.
  revert t. induction s as [| c r IH]; intros [| d q]; simpl; try discriminate.
  - reflexivity.
  - intros H. apply andb_prop in H. destruct H as [Hc Hr].
    f_equal; [now apply to_lower_char_nocase | now apply IH].
Qed.

Example to_lower_STL : Str.to_lower ".StL" = ".stl".
Proof. reflexivity. Qed.

Example extension_of_nested : Str.extension_str "out.d/model.tar.GZ" = ".GZ".
Proof. reflexivity. Qed.

Example extension_of_dotdot : Str.extension_str "a/.." = EmptyString.
Proof. reflexivity. Qed.

(** ** Paths *)

Example absolute_in_a_directory : absolute "/home/u" "in.scad" = "/home/u/in.scad".
Proof. reflexivity. Qed.

Example absolute_in_the_root : absolute "/" "v_in.scad" = "/v_in.scad".
Proof. reflexivity. Qed.

Example absolute_of_a_rooted_path : absolute "/home/u" "/tmp/in.scad" = "/tmp/in.scad".
Proof. reflexivity. Qed.

Example parent_path_in_a_directory : parent_path "/home/u/in.scad" = "/home/u".
Proof. reflexivity. Qed.

Example parent_path_under_the_root : parent_path "/v_in.scad" = "/".
Proof. reflexivity. Qed.

Example parent_path_of_a_name : parent_path "in.scad" = EmptyString.
Proof. reflexivity. Qed.

Example parent_path_over_slashes : parent_path "/a//b" = "/a".
Proof. reflexivity. Qed.

(** ** The suffix chain *)

Lemma assign_output_file_cases (suffix output_file : string) :
  Selection suffix output_file (assign_output_file suffix output_file).
Proof.
  unfold assign_output_file.
  repeat match goal with
  | |- context [String.eqb suffix ?s] =>
      let E := fresh "E" in
      destruct (String.eqb suffix s) eqn:E;
      [ apply String.eqb_eq in E; subst suffix; simpl;
        first [ apply sel_stl | apply sel_off | apply sel_amf | apply sel_dxf
              | apply sel_svg | apply sel_csg | apply sel_png | apply sel_ast
              | apply sel_term | apply sel_echo ]; reflexivity
      | apply String.eqb_neq in E ]
  end.
  apply sel_unknown. simpl. intuition congruence.
Qed.

Lemma assign_output_file_known (t : FormatTag) (output_file : string) :
  exists o, assign_output_file (tag_suffix t) output_file = Some o
            /\ active_tags o = [t] /\ tag_pointer o t = Some output_file.
Proof. destruct t; eexists; repeat split. Qed.

Lemma assign_output_file_unknown (suffix output_file : string) :
  ~ In suffix recognized_suffixes -> assign_output_file suffix output_file = None.
Proof.
  intros H. destruct (assign_output_file_cases suffix output_file);
    try reflexivity; exfalso; apply H; subst; simpl; tauto.
Qed.

(** C8. The output format is a function of the destination's suffix alone,
    compared without regard to case: two destinations whose extensions
    differ only by the case of letters select the same format, and for
    every destination either the suffix is one of the ten recognized ones
    and exactly one of the ten destination pointers is set (the one of
    that suffix, to the destination), or the suffix is none of them and
    the unknown-suffix arm is taken. *)
Theorem C8_format_selection_by_suffix (output_file other : string)
    (Hcase : Str.eq_nocase (Str.extension_str output_file) (Str.extension_str other) = true) :
  selected other = selected output_file
  /\ match assign_output_file (output_suffix output_file) output_file with
     | Some o =>
         exists t, output_suffix output_file = tag_suffix t
                   /\ active_tags o = [t]
                   /\ tag_pointer o t = Some output_file
     | None => ~ In (output_suffix output_file) recognized_suffixes
     end.
Proof.
  split.
  - unfold selected, output_suffix.
    rewrite (to_lower_nocase _ _ Hcase).
    destruct (assign_output_file_cases (Str.to_lower (Str.extension_str other)) other) as
      [E|E|E|E|E|E|E|E|E|E|E].
    11: { now rewrite !assign_output_file_unknown. }
    all: rewrite E; reflexivity.
  - destruct (assign_output_file_cases (output_suffix output_file) output_file) as
      [E|E|E|E|E|E|E|E|E|E|E]; try assumption.
    + exists TagSTL; now rewrite E.
    + exists TagOFF; now rewrite E.
    + exists TagAMF; now rewrite E.
    + exists TagDXF; now rewrite E.
    + exists TagSVG; now rewrite E.
    + exists TagCSG; now rewrite E.
    + exists TagPNG; now rewrite E.
    + exists TagAST; now rewrite E.
    + exists TagTERM; now rewrite E.
    + exists TagECHO; now rewrite E.
Qed.

(** An instance: [Part.STL] and [out/model.stl] select the same format. *)
Lemma C8_format_selection_witness :
  selected "Part.STL" = selected "out/model.stl"
  /\ match assign_output_file (output_suffix "out/model.stl") "out/model.stl" with
     | Some o =>
         exists t, output_suffix "out/model.stl" = tag_suffix t
                   /\ active_tags o = [t]
                   /\ tag_pointer o t = Some "out/model.stl"
     | None => ~ In (output_suffix "out/model.stl") recognized_suffixes
     end.
Proof. apply (C8_format_selection_by_suffix "out/model.stl" "Part.STL"). reflexivity. Defined.

(** ** Symbolic execution of the monad *)

(** Unfold the statements of the pipeline and reduce; the collaborators'
    answers, the file lookups and the list recursions stay folded. *)
Ltac exec :=
  cbv beta iota zeta delta
    [run cmdline geometry_branch png_block deps_block term_branch dump_to export_if
     checkAndExport exportFileByName write_deps handle_dep
     new_Echostream PRINT Echostream_output chdir ifstream_read write
     ofstream_open when get modify undefined return_ bind ret
     record add_dependency set_outputhandler add_stderr set_current_path set_files
     files current_path stderr outputhandler dependencies journal
     stream_path is_open non_null
     stl_output_file off_output_file amf_output_file dxf_output_file svg_output_file
     csg_output_file png_output_file ast_output_file term_output_file echo_output_file
     fst snd orb andb negb Render.eqb Z.eqb].

Lemma PRINT_all_spec (msgs : list string) (w : World) :
  exists fs' err',
    PRINT_all msgs w =
      (Next tt, mkWorld fs' (current_path w) err' (outputhandler w)
                        (dependencies w) (journal w))
    /\ (outputhandler w = None -> fs' = files w /\ err' = (stderr w ++ msgs)%list)
    /\ (forall p, is_Some (files w !! p) -> is_Some (fs' !! p)).
Proof.
  revert w. induction msgs as [| m r IH]; intros [fs cwd err h dp j].
  - exists fs, err. simpl. rewrite app_nil_r. auto.
  - cbn [PRINT_all]. unfold bind at 1. unfold PRINT at 1.
    unfold bind at 1. unfold get at 1. cbn [outputhandler].
    destruct h as [[sp [|]] |]; exec.
    + destruct (IH (mkWorld (<[sp:=default EmptyString (fs !! sp) +:+ m +:+ nl]> fs) cwd err
                     (Some (mkOfstream sp true)) dp j)) as (fs' & err' & E & _ & Hdom).
      rewrite E. exists fs', err'. split; [reflexivity|]. split; [discriminate|].
      intros p Hp. apply Hdom. cbn [files].
      destruct (decide (sp = p)) as [->|Hne].
      * rewrite lookup_insert_eq. eauto.
      * rewrite lookup_insert_ne; auto.
    + destruct (IH (mkWorld fs cwd err (Some (mkOfstream sp false)) dp j))
        as (fs' & err' & E & _ & Hdom).
      rewrite E. exists fs', err'. split; [reflexivity|]. split; [discriminate|]. exact Hdom.
    + destruct (IH (mkWorld fs cwd (err ++ [m]) None dp j)) as (fs' & err' & E & Hn & Hdom).
      rewrite E. exists fs', err'. split; [reflexivity|]. split; [|exact Hdom].
      intros _. destruct (Hn eq_refl) as [-> ->]. cbn. rewrite <- app_assoc. auto.
Qed.

Lemma handleDependencies_spec (ps : list string) (w : World) :
  exists dp',
    handleDependencies ps w =
      (Next tt, mkWorld (files w) (current_path w) (stderr w) (outputhandler w)
                        dp' (journal w)).
Proof.
  revert w. induction ps as [| p r IH]; intros [fs cwd err h dp j].
  - exists dp. reflexivity.
  - cbn [handleDependencies]. exec.
    destruct (IH (mkWorld fs cwd err h ({[p]} ∪ dp) j)) as (dp' & E).
    rewrite E. exists dp'. reflexivity.
Qed.

(** Use what the hypotheses say about a collaborator's answer. *)
Ltac known :=
  match goal with
  | H : ?fs !! ?p = _ |- context [?fs !! ?p] => rewrite H
  | H : parse ?e ?a ?b = _ |- context [parse ?e ?a ?b] => rewrite H
  | H : evaluateGeometry ?e ?a = _ |- context [evaluateGeometry ?e ?a] => rewrite H
  | H : evaluateCSGTerm ?e ?a = _ |- context [evaluateCSGTerm ?e ?a] => rewrite H
  | H : can_create ?e ?a = _ |- context [can_create ?e ?a] => rewrite H
  | H : ENABLE_CGAL ?e = _ |- context [ENABLE_CGAL ?e] => rewrite H
  | H : N.eqb ?a ?b = _ |- context [N.eqb ?a ?b] => rewrite H
  end.

(** One step: reduce, use a hypothesis, or split on the next answer. *)
Ltac step :=
  first
    [ known
    | progress exec
    | match goal with
      | |- context [PRINT_all ?m ?w] =>
          let fs' := fresh "fs" in let err' := fresh "err" in
          let E := fresh "E" in let Hn := fresh "Hn" in let Hd := fresh "Hd" in
          destruct (PRINT_all_spec m w) as (fs' & err' & E & Hn & Hd);
          rewrite E; clear E; cbn [files outputhandler stderr] in Hn, Hd
      | |- context [handleDependencies ?ps ?w] =>
          let dp' := fresh "dp" in let E := fresh "E" in
          destruct (handleDependencies_spec ps w) as (dp' & E);
          rewrite E; clear E
      | |- context [match ?fs !! ?p with _ => _ end] => destruct (fs !! p) eqn:?
      | |- context [match parse ?e ?a ?b with _ => _ end] => destruct (parse e a b) eqn:?
      | |- context [match evaluateGeometry ?e ?a with _ => _ end] =>
          destruct (evaluateGeometry e a) eqn:?
      | |- context [match evaluateCSGTerm ?e ?a with _ => _ end] =>
          destruct (evaluateCSGTerm e a) eqn:?
      | |- context [if can_create ?e ?a then _ else _] => destruct (can_create e a) eqn:?
      | |- context [if ENABLE_CGAL ?e then _ else _] => destruct (ENABLE_CGAL e) eqn:?
      | |- context [if N.eqb ?a ?b then _ else _] => destruct (N.eqb a b) eqn:?
      | |- context [match ?d with Some _ => _ | None => _ end] => is_var d; destruct d
      | |- context [match ?r with Render.CGAL => _ | _ => _ end] => is_var r; destruct r
      | |- context [let (_, _) := ?s in _] => is_var s; destruct s as [? [|]]
      end ].

(** Start a proof about a run: name the fields of the world and split on
    the arm of the suffix chain. *)
Ltac start_run w output_file :=
  match goal with
  | |- context [run ?e ?d ?f ?c ?o ?p ?r ?w0] =>
      let R := fresh "R" in let HR := fresh "HR" in
      remember (run e d f c o p r w0) as R eqn:HR; revert HR
  end;
  destruct w as [fs cwd err h dp j];
  unfold at_start, output_suffix in *;
  cbn [files current_path stderr outputhandler dependencies journal] in *;
  unfold run, cmdline;
  destruct (assign_output_file_cases (Str.to_lower (Str.extension_str output_file))
                                     output_file).

(** Without a handler, what was echoed went to the standard error stream. *)
Ltac no_handler :=
  repeat match goal with
  | H : None = None -> _ /\ _ |- _ => destruct (H eq_refl) as [-> ->]; clear H
  end.

(** ** The dispatch *)

(** Every run returns an exit status: the NULL checks of the shared
    geometry pointer never fire, because an export or a full-render image
    is only reached after a successful evaluation. *)
Lemma run_returns_a_status
    (env : Env) (deps_output_file : option string) (filename : string)
    (camera : Camera) (output_file original_path : string)
    (renderer : Render.type) (w : World) :
  exists status : Z,
    fst (run env deps_output_file filename camera output_file original_path renderer w)
    = Some status /\ (status = 0%Z \/ status = 1%Z).
Proof.
  start_run w output_file.
  all: repeat step.
  all: intros ->; cbn [fst]; eauto.
Qed.

(** C1 (as amended). The boundary-representation evaluator is invoked at
    most once in a run. It is not invoked for [.csg], [.term] and [.ast],
    and not for [.echo] and [.png] unless the render mode is the full
    render; when it is invoked, the destination is a solid or drawing
    export, or it is [.png] or [.echo] in full-render mode. *)
Theorem C1_geometry_evaluated_at_most_once
    (env : Env) (deps_output_file : option string) (filename : string)
    (camera : Camera) (output_file original_path : string)
    (renderer : Render.type) (w : World)
    (Hstart : journal w = []) :
  let j := journal (snd (run env deps_output_file filename camera output_file
                             original_path renderer w)) in
  (geometry_evaluations j <= 1)%nat
  /\ (In (output_suffix output_file) [".csg"; ".term"; ".ast"] ->
      geometry_evaluations j = 0%nat)
  /\ (In (output_suffix output_file) [".echo"; ".png"] ->
      renderer <> Render.CGAL -> geometry_evaluations j = 0%nat)
  /\ (geometry_evaluations j = 1%nat ->
      In (output_suffix output_file) (solid_suffixes ++ drawing_suffixes)
      \/ (In (output_suffix output_file) [".png"; ".echo"] /\ renderer = Render.CGAL)).
Proof.
  intros j0; subst j0. start_run w output_file.
  all: repeat step.
  all: intros ->; cbn [snd journal]; subst j.
  all: match goal with H : Str.to_lower _ = _ |- _ => rewrite H | _ => idtac end.
  all: cbn; repeat split; try lia; try tauto; try congruence; intuition congruence.
Qed.

(** An instance: a cube sent to [.stl] from a fresh process. *)
Lemma C1_geometry_evaluated_witness :
  journal sample_world = []
  /\ (geometry_evaluations
        (journal (snd (run (sample_env true true (Some (mkGeometry 3)) None) None
                           "in.scad" sample_camera "out.stl" "/home/u"
                           Render.OPENCSG sample_world))) <= 1)%nat.
Proof.
  split; [reflexivity |].
  exact (proj1 (C1_geometry_evaluated_at_most_once
                  (sample_env true true (Some (mkGeometry 3)) None) None "in.scad"
                  sample_camera "out.stl" "/home/u" Render.OPENCSG sample_world eq_refl)).
Defined.

(** C1 as stated fails: an [.echo] run in full-render mode invokes the
    boundary-representation evaluator. *)
Lemma C1_counterexample_echo_full_render :
  output_suffix "out.echo" = ".echo"
  /\ ~ (geometry_evaluations (journal (snd echo_full_render_run)) = 0%nat).
Proof. split; [reflexivity | vm_compute; discriminate]. Qed.

Lemma exporter_of_suffix_cases (suffix : string) (nd : N) (format : FileFormat) :
  exporter_of_suffix suffix = Some (nd, format) ->
  (suffix = ".stl" /\ nd = 3%N /\ format = OPENSCAD_STL)
  \/ (suffix = ".off" /\ nd = 3%N /\ format = OPENSCAD_OFF)
  \/ (suffix = ".amf" /\ nd = 3%N /\ format = OPENSCAD_AMF)
  \/ (suffix = ".dxf" /\ nd = 2%N /\ format = OPENSCAD_DXF)
  \/ (suffix = ".svg" /\ nd = 2%N /\ format = OPENSCAD_SVG).
Proof.
  unfold exporter_of_suffix.
  repeat match goal with
  | |- context [String.eqb suffix ?s] =>
      let E := fresh "E" in
      destruct (String.eqb suffix s) eqn:E;
      [ apply String.eqb_eq in E; intros [= <- <-]; tauto | clear E ]
  end.
  discriminate.
Qed.

(** C2 (as amended). A run that reaches an exporter ([.stl], [.off],
    [.amf] with dimension 3; [.dxf], [.svg] with dimension 2) compares the
    dimension of the geometry with the required one. When they differ the
    run prints "Current top level object is not a <nd>D object.", which
    names the required dimension, and returns 1; the exporter is not
    invoked, no stream is opened, and no file other than a requested
    dependency file has changed. When they agree the exporter is invoked
    once, on the destination: if the destination can be opened, it holds
    what the writer produced and the run returns 0; if it cannot, the
    exporter reports it, the run ends with status 1, and again no file
    other than a requested dependency file has changed. *)
Theorem C2_dimension_check
    (env : Env) (deps_output_file : option string) (filename : string)
    (camera : Camera) (output_file original_path : string)
    (renderer : Render.type) (w : World) (contents : string)
    (root_module : FileModule) (root_geom : Geometry) (nd : N) (format : FileFormat)
    (Hexporter : exporter_of_suffix (output_suffix output_file) = Some (nd, format))
    (Hcgal : ENABLE_CGAL env = true)
    (Hstart : at_start w)
    (Hinput : files w !! absolute (current_path w) filename = Some contents)
    (Hparse : parse env (script_text env contents)
                    (document_path (current_path w) filename) = Some root_module)
    (Hgeom : evaluateGeometry env (root_node_of env root_module) = Some root_geom)
    (Hdeps : forall d, deps_output_file = Some d ->
                       can_create env (absolute original_path d) = true) :
  let r := run env deps_output_file filename camera output_file original_path renderer w in
  let dest := absolute original_path output_file in
  let only_the_dependency_file :=
    forall p, (forall d, deps_output_file = Some d -> p <> absolute original_path d) ->
              files (snd r) !! p = files w !! p in
  if (getDimension root_geom =? nd)%N then
    exports (journal (snd r)) = 1%nat
    /\ In (call_exportFileByName format output_file) (journal (snd r))
    /\ (if can_create env dest then
          fst r = Some 0%Z
          /\ files (snd r) !! dest = Some (exportFile env root_geom format)
        else
          fst r = Some 1%Z
          /\ stderr (snd r)
             = (stderr w ++ echoed env root_module
                         ++ [cant_open_for_export output_file])%list
          /\ only_the_dependency_file)
  else
    fst r = Some 1%Z
    /\ stderr (snd r)
       = (stderr w ++ echoed env root_module ++ [not_a_dimension_object nd])%list
    /\ Str.contains (Str.decimal nd) (not_a_dimension_object nd) = true
    /\ exports (journal (snd r)) = 0%nat
    /\ streams_opened (journal (snd r)) = 0%nat
    /\ only_the_dependency_file.
Proof.
  intros r0 dest only; subst r0 dest only.
  destruct (exporter_of_suffix_cases _ _ _ Hexporter)
    as [(Hs & -> & ->) | [(Hs & -> & ->) | [(Hs & -> & ->) | [(Hs & -> & ->) | (Hs & -> & ->)]]]].
  all: clear Hexporter.
  all: destruct deps_output_file as [d |];
       [ specialize (Hdeps d eq_refl) | clear Hdeps ].
  all: destruct (getDimension root_geom =? _)%N eqn:Hdim.
  all: try destruct (can_create env (absolute original_path output_file)) eqn:Hdest.
  all: start_run w output_file.
  all: try match goal with
       | H : ~ In _ recognized_suffixes |- _ =>
           exfalso; apply H; rewrite Hs; cbn; tauto
       end.
  all: try congruence.
  all: destruct Hstart as [-> ->].
  all: repeat step.
  all: intros ->; cbn [fst snd files stderr journal]; no_handler.
  all: repeat split; rewrite <- ?app_assoc; try reflexivity.
  all: try discriminate.
  all: try (rewrite !lookup_insert_eq; reflexivity).
  all: try (cbn; tauto).
  all: intros p Hp; rewrite ?lookup_insert_ne; auto.
  all: apply not_eq_sym, Hp; reflexivity.
Qed.

(** An instance: a 3-D object sent to [.stl] is exported. *)
Lemma C2_dimension_check_witness :
  exporter_of_suffix (output_suffix "out.stl") = Some (3%N, OPENSCAD_STL)
  /\ at_start sample_world
  /\ fst (run (sample_env true true (Some (mkGeometry 3)) None) None "in.scad"
              sample_camera "out.stl" "/home/u" Render.OPENCSG sample_world) = Some 0%Z.
Proof.
  split; [reflexivity | split; [split; reflexivity |]].
  exact (proj1 (proj2 (proj2
           (C2_dimension_check (sample_env true true (Some (mkGeometry 3)) None) None
              "in.scad" sample_camera "out.stl" "/home/u" Render.OPENCSG sample_world
              "echo(1); cube(1);" sample_module (mkGeometry 3) 3%N OPENSCAD_STL
              eq_refl eq_refl (conj eq_refl eq_refl) eq_refl eq_refl eq_refl
              (fun _ _ => eq_refl))))).
Defined.

(** C2 as stated fails twice. A 2-D object sent to [.stl] ends the run
    with status 1, but no printed message names both the actual dimension
    2 and the required dimension 3. And a 3-D object sent to an [.stl]
    destination that cannot be opened has the matching dimension, yet the
    export is not performed and the run does not succeed: nothing is
    written and the status is 1. *)
Lemma C2_counterexample_message_and_unwritable_destination :
  (fst flat_to_stl_run = Some 1%Z
   /\ ~ (exists m, In m (stderr (snd flat_to_stl_run))
                   /\ Str.contains (Str.decimal 2) m = true
                   /\ Str.contains (Str.decimal 3) m = true))
  /\ (fst solid_to_unwritable_stl_run = Some 1%Z
      /\ files (snd solid_to_unwritable_stl_run) = files sample_world).
Proof.
  split; [split; [reflexivity |] | split; reflexivity].
  intros (m & Hin & H2 & H3).
  assert (E : stderr (snd flat_to_stl_run)
              = ["ECHO: 1"; "Current top level object is not a 3D object."])
    by reflexivity.
  rewrite E in Hin. cbn in Hin.
  destruct Hin as [<- | [<- | []]]; vm_compute in H2; discriminate.
Qed.

(** C4. A destination whose suffix is none of the ten recognized ones
    makes the run print the unknown-suffix message and return 1; no stream
    is opened, no collaborator is invoked and the file system is left as
    it was. *)
Theorem C4_unknown_suffix_fails
    (env : Env) (deps_output_file : option string) (filename : string)
    (camera : Camera) (output_file original_path : string)
    (renderer : Render.type) (w : World)
    (Hsuffix : ~ In (output_suffix output_file) recognized_suffixes)
    (Hhandler : outputhandler w = None) :
  let r := run env deps_output_file filename camera output_file original_path renderer w in
  fst r = Some 1%Z
  /\ stderr (snd r) = (stderr w ++ [("Unknown suffix for output file " ++ output_file ++ nl)%string])%list
  /\ files (snd r) = files w
  /\ journal (snd r) = journal w.
Proof.
  unfold run, cmdline. fold (output_suffix output_file).
  rewrite (assign_output_file_unknown _ output_file Hsuffix).
  destruct w as [fs cwd err h dp j]. cbn [outputhandler] in Hhandler. subst h.
  exec. auto.
Qed.

(** An instance: the destination [model.obj]. *)
Lemma C4_unknown_suffix_witness :
  ~ In (output_suffix "model.obj") recognized_suffixes
  /\ outputhandler sample_world = None
  /\ fst (run (sample_env true true None None) None "in.scad" sample_camera
              "model.obj" "/home/u" Render.OPENCSG sample_world) = Some 1%Z.
Proof.
  assert (H1 : ~ In (output_suffix "model.obj") recognized_suffixes).
  { vm_compute. intuition discriminate. }
  split; [exact H1 | split; [reflexivity |]].
  exact (proj1 (C4_unknown_suffix_fails (sample_env true true None None) None "in.scad"
                  sample_camera "model.obj" "/home/u" Render.OPENCSG sample_world
                  H1 eq_refl)).
Defined.

(** C3. On the full-geometry path (a solid or drawing export, or a raster
    image in full-render mode), when the evaluator yields no geometry the
    run prints "No top-level object found." and returns 1: no stream was
    opened, neither the dependency writer nor an exporter was invoked, and
    the file system is left as it was. *)
Theorem C3_empty_geometry_fails
    (env : Env) (deps_output_file : option string) (filename : string)
    (camera : Camera) (output_file original_path : string)
    (renderer : Render.type) (w : World) (contents : string) (root_module : FileModule)
    (Hformat : In (output_suffix output_file) (solid_suffixes ++ drawing_suffixes)
               \/ (output_suffix output_file = ".png" /\ renderer = Render.CGAL))
    (Hcgal : ENABLE_CGAL env = true)
    (Hhandler : outputhandler w = None)
    (Hinput : files w !! absolute (current_path w) filename = Some contents)
    (Hparse : parse env (script_text env contents)
                    (document_path (current_path w) filename) = Some root_module)
    (Hempty : evaluateGeometry env (root_node_of env root_module) = None) :
  let r := run env deps_output_file filename camera output_file original_path renderer w in
  fst r = Some 1%Z
  /\ stderr (snd r) = (stderr w ++ echoed env root_module ++ ["No top-level object found."])%list
  /\ files (snd r) = files w
  /\ journal (snd r) =
       (journal w ++ [call_handle_dep (absolute (current_path w) filename);
                      call_ifstream (absolute (current_path w) filename) true;
                      call_parse; call_instantiate;
                      call_evaluateGeometry (root_node_of env root_module)])%list.
Proof.
  intros r0; subst r0. start_run w output_file.
  all: match goal with
       | H : Str.to_lower _ = _ |- _ => rewrite H in Hformat
       | _ => idtac
       end.
  all: try (exfalso; cbn in Hformat; intuition congruence).
  all: try (exfalso;
            match goal with H : ~ In _ recognized_suffixes |- _ => apply H end;
            cbn in Hformat |- *; intuition auto).
  all: subst h.
  all: repeat step.
  all: try (destruct Hformat as [Hf | [_ Hf]]; [cbn in Hf; intuition congruence | discriminate]).
  all: intros ->; cbn [fst snd files stderr journal].
  all: no_handler.
  all: repeat split; rewrite <- ?app_assoc; reflexivity.
Qed.

(** An instance: an empty script sent to [.off]. *)
Lemma C3_empty_geometry_witness :
  In (output_suffix "out.off") (solid_suffixes ++ drawing_suffixes)
  /\ evaluateGeometry (sample_env true true None None)
       (root_node_of (sample_env true true None None) sample_module) = None
  /\ fst (run (sample_env true true None None) None "in.scad" sample_camera
              "out.off" "/home/u" Render.OPENCSG sample_world) = Some 1%Z
  /\ files (snd (run (sample_env true true None None) None "in.scad" sample_camera
                     "out.off" "/home/u" Render.OPENCSG sample_world))
     = files sample_world.
Proof.
  assert (H1 : In (output_suffix "out.off") (solid_suffixes ++ drawing_suffixes)).
  { vm_compute. tauto. }
  pose proof (C3_empty_geometry_fails (sample_env true true None None) None "in.scad"
                sample_camera "out.off" "/home/u" Render.OPENCSG sample_world
                "echo(1); cube(1);" sample_module
                (or_introl H1) eq_refl eq_refl eq_refl eq_refl eq_refl) as H.
  split; [exact H1 | split; [reflexivity |]].
  split; [exact (proj1 H) | exact (proj1 (proj2 (proj2 H)))].
Defined.

(** C5, the code at the failing input. With a [.csg], [.ast] or [.term]
    destination that cannot be opened, a run whose script loads and parses
    prints "Can't open file ... for export", changes no file, and returns
    0: the failure does not reach the exit status. *)
Theorem C5_unwritable_text_output_returns_zero
    (env : Env) (deps_output_file : option string) (filename : string)
    (camera : Camera) (output_file original_path : string)
    (renderer : Render.type) (w : World) (contents : string) (root_module : FileModule)
    (Hformat : In (output_suffix output_file) [".csg"; ".ast"; ".term"])
    (Hhandler : outputhandler w = None)
    (Hinput : files w !! absolute (current_path w) filename = Some contents)
    (Hparse : parse env (script_text env contents)
                    (document_path (current_path w) filename) = Some root_module)
    (Hunwritable : can_create env (absolute original_path output_file) = false) :
  let r := run env deps_output_file filename camera output_file original_path renderer w in
  fst r = Some 0%Z
  /\ files (snd r) = files w
  /\ stderr (snd r)
     = (stderr w ++ echoed env root_module ++ [cant_open_for_export output_file])%list.
Proof.
  intros r0; subst r0. start_run w output_file.
  all: try match goal with
       | H : ~ In _ recognized_suffixes |- _ =>
           exfalso; apply H; cbn in Hformat |- *; intuition auto
       end.
  all: match goal with
       | H : Str.to_lower _ = _ |- _ => rewrite H in Hformat
       end.
  all: try (exfalso; cbn in Hformat; intuition congruence).
  all: subst h; repeat step.
  all: intros ->; cbn [fst snd files stderr]; no_handler.
  all: repeat split; rewrite <- ?app_assoc; reflexivity.
Qed.

(** An instance: [out.csg] in a directory where nothing can be created. *)
Lemma C5_unwritable_text_output_witness :
  In (output_suffix "out.csg") [".csg"; ".ast"; ".term"]
  /\ can_create (sample_env true false (Some (mkGeometry 3)) None)
                (absolute "/home/u" "out.csg") = false
  /\ fst unwritable_csg_run = Some 0%Z
  /\ files (snd unwritable_csg_run) = files sample_world.
Proof.
  assert (H1 : In (output_suffix "out.csg") [".csg"; ".ast"; ".term"]).
  { vm_compute. tauto. }
  pose proof (C5_unwritable_text_output_returns_zero
                (sample_env true false (Some (mkGeometry 3)) None) None "in.scad"
                sample_camera "out.csg" "/home/u" Render.OPENCSG sample_world
                "echo(1); cube(1);" sample_module H1 eq_refl eq_refl eq_refl eq_refl) as H.
  split; [exact H1 | split; [reflexivity |]].
  split; [exact (proj1 H) | exact (proj1 (proj2 H))].
Defined.

(** C9 (as amended). A [.term] run whose script loads and parses, whose
    boolean-term evaluation yields no top-level term and whose destination
    can be opened for writing does not fail: the term evaluator is invoked
    once, the destination holds the line "No top-level CSG object", and
    the run returns 0. *)
Theorem C9_term_without_top_level_object
    (env : Env) (deps_output_file : option string) (filename : string)
    (camera : Camera) (output_file original_path : string)
    (renderer : Render.type) (w : World) (contents : string) (root_module : FileModule)
    (Hsuffix : output_suffix output_file = ".term")
    (Hinput : files w !! absolute (current_path w) filename = Some contents)
    (Hparse : parse env (script_text env contents)
                    (document_path (current_path w) filename) = Some root_module)
    (Hempty : evaluateCSGTerm env (root_node_of env root_module) = None)
    (Hcreate : can_create env (absolute original_path output_file) = true) :
  let r := run env deps_output_file filename camera output_file original_path renderer w in
  let dest := absolute original_path output_file in
  fst r = Some 0%Z
  /\ term_evaluations (journal (snd r)) = S (term_evaluations (journal w))
  /\ files (snd r) !! dest = Some ("No top-level CSG object" ++ nl).
Proof.
  intros r0 dest; subst r0 dest. start_run w output_file.
  all: try match goal with
       | H : ~ In _ recognized_suffixes |- _ =>
           exfalso; apply H; rewrite Hsuffix; cbn; tauto
       end.
  all: try congruence.
  all: repeat step.
  all: intros ->; cbn [fst snd files journal].
  all: repeat split; try discriminate.
  all: try (rewrite !lookup_insert_eq; reflexivity).
  all: unfold term_evaluations; rewrite !List.filter_app, !List.length_app; cbn; lia.
Qed.

(** An instance: an empty script sent to [.term]. *)
Lemma C9_term_without_top_level_object_witness :
  output_suffix "out.term" = ".term"
  /\ evaluateCSGTerm (sample_env true true None None)
       (root_node_of (sample_env true true None None) sample_module) = None
  /\ fst (run (sample_env true true None None) None "in.scad" sample_camera
              "out.term" "/home/u" Render.OPENCSG sample_world) = Some 0%Z
  /\ files (snd (run (sample_env true true None None) None "in.scad" sample_camera
                     "out.term" "/home/u" Render.OPENCSG sample_world))
       !! "/home/u/out.term" = Some ("No top-level CSG object" ++ nl).
Proof.
  pose proof (C9_term_without_top_level_object (sample_env true true None None) None
                "in.scad" sample_camera "out.term" "/home/u" Render.OPENCSG sample_world
                "echo(1); cube(1);" sample_module eq_refl eq_refl eq_refl eq_refl eq_refl)
    as H.
  split; [reflexivity | split; [reflexivity |]].
  split; [exact (proj1 H) | exact (proj2 (proj2 H))].
Defined.

(** C9 as stated fails: a [.term] run without a top-level term whose
    destination cannot be opened takes the failed-open branch of the
    [.term] block; the line is written nowhere, no file has changed. *)
Lemma C9_counterexample_unwritable_destination :
  output_suffix "out.term" = ".term"
  /\ evaluateCSGTerm (sample_env true false None None)
       (root_node_of (sample_env true false None None) sample_module) = None
  /\ fst empty_term_unwritable_run = Some 0%Z
  /\ files (snd empty_term_unwritable_run) !! "/home/u/out.term" = None
  /\ files (snd empty_term_unwritable_run) = files sample_world
  /\ stderr (snd empty_term_unwritable_run)
     = ["ECHO: 1"; cant_open_for_export "out.term"].
Proof. repeat split; reflexivity. Qed.

(** C6, the code on a dependency path. [write_deps] is invoked only with
    the requested dependency path, for the destination itself, and only
    when the destination is a solid, drawing or raster file; with an
    [.echo] destination a dependency path makes the run return 1 (the arm
    "don't know how to write deps for that file type" of the dependency
    block). With a [.csg], [.ast] or [.term] destination the dependency
    path is not looked at: a run whose script loads and parses returns 0,
    reports nothing but a destination that cannot be opened, and changes
    no file but the destination. *)
Theorem C6_dependency_output
    (env : Env) (deps_output_file : option string) (filename : string)
    (camera : Camera) (output_file original_path : string)
    (renderer : Render.type) (w : World)
    (Hstart : at_start w) :
  let r := run env deps_output_file filename camera output_file original_path renderer w in
  let dest := absolute original_path output_file in
  (forall deps_out geom_out,
      In (call_write_deps deps_out geom_out) (journal (snd r)) ->
      deps_output_file = Some deps_out
      /\ geom_out = output_file
      /\ In (output_suffix output_file) deps_suffixes)
  /\ (output_suffix output_file = ".echo" -> deps_output_file <> None ->
      fst r = Some 1%Z)
  /\ (In (output_suffix output_file) [".csg"; ".ast"; ".term"] ->
      forall contents root_module,
        files w !! absolute (current_path w) filename = Some contents ->
        parse env (script_text env contents)
              (document_path (current_path w) filename) = Some root_module ->
        fst r = Some 0%Z
        /\ stderr (snd r)
           = (stderr w ++ echoed env root_module
                       ++ (if can_create env dest then []
                           else [cant_open_for_export output_file]))%list
        /\ (forall p, p <> dest -> files (snd r) !! p = files w !! p)).
Proof.
  intros r0 dest; subst r0 dest. start_run w output_file.
  all: destruct Hstart as [-> ->]; repeat step.
  all: intros ->; cbn [fst snd journal files stderr]; no_handler.
  all: match goal with H : Str.to_lower _ = _ |- _ => rewrite H | _ => idtac end.
  all: split;
    [ intros deps_out geom_out Hin; cbn in Hin; cbn;
      intuition (try discriminate; try congruence)
    | split;
      [ intros Hsfx Hdps; try discriminate Hsfx; try reflexivity; try congruence
      | intros Hfmt contents root_module Hin Hpa ] ].
  all: try (exfalso; cbn in Hfmt; intuition congruence).
  all: try match goal with
       | H : ~ In _ recognized_suffixes |- _ =>
           exfalso; apply H; cbn in Hfmt |- *; intuition auto
       end.
  all: try congruence.
  all: simplify_eq.
  all: repeat split; rewrite <- ?app_assoc, ?app_nil_r; try reflexivity.
  all: intros p Hp; rewrite ?lookup_insert_ne; auto.
Qed.

(** An instance: a dependency file requested with [out.csg]; the run
    returns 0 and the dependency file does not exist afterwards. *)
Lemma C6_dependency_output_witness :
  at_start sample_world
  /\ In (output_suffix "out.csg") [".csg"; ".ast"; ".term"]
  /\ fst csg_with_deps_run = Some 0%Z
  /\ files (snd csg_with_deps_run) !! "/home/u/out.d" = None.
Proof.
  assert (Hs : at_start sample_world) by (split; reflexivity).
  assert (Hf : In (output_suffix "out.csg") [".csg"; ".ast"; ".term"])
    by (vm_compute; tauto).
  pose proof (proj2 (proj2 (C6_dependency_output
                (sample_env true true (Some (mkGeometry 3)) (Some (mkCSGTerm "cube")))
                (Some "out.d") "in.scad" sample_camera "out.csg" "/home/u"
                Render.OPENCSG sample_world Hs))
              Hf "echo(1); cube(1);" sample_module eq_refl eq_refl) as H.
  split; [exact Hs | split; [exact Hf |]].
  split; [exact (proj1 H) |].
  change (files (snd csg_with_deps_run) !! "/home/u/out.d")
    with (files (snd (run (sample_env true true (Some (mkGeometry 3)) (Some (mkCSGTerm "cube")))
                 (Some "out.d") "in.scad" sample_camera "out.csg" "/home/u"
                 Render.OPENCSG sample_world)) !! "/home/u/out.d").
  rewrite (proj2 (proj2 H) "/home/u/out.d"); [reflexivity | vm_compute; discriminate].
Defined.

(** C7 (as amended). A [.csg] run invokes neither the boolean-term
    evaluator nor the boundary-representation evaluator; when the script
    loads and parses and the destination can be created, the run returns 0
    and the destination holds the text of the node tree rooted at the root
    node ([Tree::getString]) and a newline. *)
Theorem C7_csg_dumps_the_node_tree
    (env : Env) (deps_output_file : option string) (filename : string)
    (camera : Camera) (output_file original_path : string)
    (renderer : Render.type) (w : World)
    (Hsuffix : output_suffix output_file = ".csg")
    (Hstart : journal w = []) :
  let r := run env deps_output_file filename camera output_file original_path renderer w in
  let dest := absolute original_path output_file in
  term_evaluations (journal (snd r)) = 0%nat
  /\ geometry_evaluations (journal (snd r)) = 0%nat
  /\ (forall contents root_module,
        files w !! absolute (current_path w) filename = Some contents ->
        parse env (script_text env contents)
              (document_path (current_path w) filename) = Some root_module ->
        can_create env dest = true ->
        fst r = Some 0%Z
        /\ files (snd r) !! dest
           = Some (getString env (root_node_of env root_module) ++ nl)).
Proof.
  intros r0 dest; subst r0 dest. start_run w output_file.
  all: try match goal with
       | H : ~ In _ recognized_suffixes |- _ =>
           exfalso; apply H; rewrite Hsuffix; cbn; tauto
       end.
  all: try congruence.
  all: subst j; repeat step.
  all: intros ->; cbn [fst snd files journal].
  all: repeat split; try reflexivity.
  all: intros; simplify_eq.
  all: rewrite !lookup_insert_eq; reflexivity.
Qed.

(** An instance: a cube sent to [.csg]. *)
Lemma C7_csg_dumps_the_node_tree_witness :
  output_suffix "out.csg" = ".csg"
  /\ journal sample_world = []
  /\ term_evaluations (journal (snd csg_run)) = 0%nat
  /\ geometry_evaluations (journal (snd csg_run)) = 0%nat.
Proof.
  pose proof (C7_csg_dumps_the_node_tree
                (sample_env true true (Some (mkGeometry 3)) (Some (mkCSGTerm "cube")))
                None "in.scad" sample_camera "out.csg" "/home/u" Render.OPENCSG
                sample_world eq_refl eq_refl) as H.
  split; [reflexivity | split; [reflexivity |]].
  split; [exact (proj1 H) | exact (proj1 (proj2 H))].
Defined.

(** C7 as stated fails: a successful [.csg] run never invokes the
    boolean-term evaluator, and what it writes is the text of the node
    tree, not the dump of the evaluated term. *)
Lemma C7_counterexample_no_term_evaluation :
  output_suffix "out.csg" = ".csg"
  /\ fst csg_run = Some 0%Z
  /\ ~ (1 <= term_evaluations (journal (snd csg_run)))%nat
  /\ files (snd csg_run) !! "/home/u/out.csg" <> Some ("cube" ++ nl).
Proof.
  split; [reflexivity | split; [reflexivity | split]].
  - vm_compute. lia.
  - vm_compute. discriminate.
Qed.


(** C10. In an [.echo] run the echo file is opened, and so created or
    truncated, as the first action of the run: before the script is
    registered, opened and parsed. When the destination can be created the
    file therefore exists after the run, whatever the outcome; in
    particular after a run that returns 1 because the script cannot be
    opened or cannot be parsed. *)
Theorem C10_echo_file_created_first
    (env : Env) (deps_output_file : option string) (filename : string)
    (camera : Camera) (output_file original_path : string)
    (renderer : Render.type) (w : World)
    (Hsuffix : output_suffix output_file = ".echo")
    (Hcreate : can_create env (absolute (current_path w) output_file) = true) :
  let r := run env deps_output_file filename camera output_file original_path renderer w in
  let dest := absolute (current_path w) output_file in
  let input := absolute (current_path w) filename in
  (exists opened rest,
      journal (snd r)
      = (journal w ++ call_ofstream dest true :: call_handle_dep input
                     :: call_ifstream input opened :: rest)%list)
  /\ is_Some (files (snd r) !! dest)
  /\ (<[dest := EmptyString]> (files w) !! input = None -> fst r = Some 1%Z)
  /\ (forall contents,
        <[dest := EmptyString]> (files w) !! input = Some contents ->
        parse env (script_text env contents)
              (document_path (current_path w) filename) = None ->
        fst r = Some 1%Z).
Proof.
  intros r0 dest input; subst r0 dest input. start_run w output_file.
  all: try match goal with
       | H : ~ In _ recognized_suffixes |- _ =>
           exfalso; apply H; rewrite Hsuffix; cbn; tauto
       end.
  all: try congruence.
  all: repeat step.
  all: intros ->; cbn [fst snd files journal].
  all: split; [ eexists; eexists; rewrite <- ?app_assoc; cbn [app]; reflexivity | ].
  all: split;
    [ rewrite ?lookup_insert_eq; eauto;
      match goal with
      | Hd : forall p, is_Some _ -> is_Some _ |- _ =>
          apply Hd; rewrite lookup_insert_eq; eauto
      end
    | ].
  all: split; [ intros Hin; try reflexivity; congruence
              | intros c Hin Hp; try reflexivity; simplify_eq ].
Qed.

(** An instance: a script that does not parse, with [out.echo]. *)
Lemma C10_echo_file_created_first_witness :
  output_suffix "out.echo" = ".echo"
  /\ is_Some (files (snd (run failing_parser_env None "in.scad" sample_camera "out.echo"
                              "/home/u" Render.OPENCSG sample_world))
              !! "/home/u/out.echo")
  /\ fst (run failing_parser_env None "in.scad" sample_camera "out.echo"
              "/home/u" Render.OPENCSG sample_world) = Some 1%Z.
Proof.
  pose proof (C10_echo_file_created_first failing_parser_env None "in.scad" sample_camera
                "out.echo" "/home/u" Render.OPENCSG sample_world eq_refl eq_refl) as H.
  split; [reflexivity |].
  split; [exact (proj1 (proj2 H)) |].
  exact (proj2 (proj2 (proj2 H)) "echo(1); cube(1);" eq_refl eq_refl).
Defined.

(** ** The end-to-end scenarios *)

(** A cube sent to [.stl]: status 0, one evaluation, one export, the file
    written. *)
Example scenario_cube_to_stl :
  let r := run (sample_env true true (Some (mkGeometry 3)) None) None "in.scad"
               sample_camera "out.stl" "/home/u" Render.OPENCSG sample_world in
  fst r = Some 0%Z
  /\ geometry_evaluations (journal (snd r)) = 1%nat
  /\ exports (journal (snd r)) = 1%nat
  /\ files (snd r) !! "/home/u/out.stl" = Some "solid".
Proof. vm_compute. repeat split. Qed.

(** The same script sent to [.csg]: status 0 without any evaluation. *)
Example scenario_cube_to_csg :
  fst csg_run = Some 0%Z
  /\ geometry_evaluations (journal (snd csg_run)) = 0%nat
  /\ files (snd csg_run) !! "/home/u/out.csg" = Some ("group() { cube(1); }" ++ nl).
Proof. vm_compute. repeat split. Qed.

(** An unreadable script: status 1, and the parser is never reached; with
    an [.echo] destination the echo file is there all the same. *)
Example scenario_unreadable_input :
  let r := run (sample_env true true (Some (mkGeometry 3)) None) None "in.scad"
               sample_camera "out.echo" "/home/u" Render.OPENCSG empty_world in
  fst r = Some 1%Z
  /\ ~ In call_parse (journal (snd r))
  /\ is_Some (files (snd r) !! "/home/u/out.echo").
Proof.
  vm_compute. split; [reflexivity | split].
  - intros [H | [H | [H | []]]]; discriminate H.
  - eexists; reflexivity.
Qed.

(** A script directly under the root directory, run from there: it is
    found, and the run ends in the root directory. *)
Example scenario_script_in_the_root :
  let r := run (sample_env true true None None) None "v_in.scad" sample_camera
               "out.ast" "/" Render.OPENCSG root_world in
  fst r = Some 0%Z
  /\ In (call_ifstream "/v_in.scad" true) (journal (snd r))
  /\ files (snd r) !! "/out.ast" = Some ("cube(1);" ++ nl)
  /\ current_path (snd r) = "/".
Proof. cbv zeta. repeat split; try reflexivity. vm_compute. tauto. Qed.

(** * Beyond the claims *)

(** ** More on the dispatch *)

Lemma string_append_assoc (a b c : string) : ((a ++ b) ++ c = a ++ (b ++ c))%string.
Proof.
  induction a as [| x a IH]; [reflexivity |].
  change (String x ((a ++ b) ++ c) = String x (a ++ (b ++ c))). now rewrite IH.
Qed.

Lemma string_append_nil_r (a : string) : (a ++ EmptyString = a)%string.
Proof.
  induction a as [| x a IH]; [reflexivity |].
  change (String x (a ++ EmptyString) = String x a). now rewrite IH.
Qed.

(** With an open echo stream installed, a list of messages is appended to
    the echo file line by line and nothing else changes. *)
Lemma PRINT_all_to_stream (msgs : list string) (w : World) (sp c : string) :
  outputhandler w = Some (mkOfstream sp true) ->
  files w !! sp = Some c ->
  PRINT_all msgs w
  = (Next tt, mkWorld (<[sp := (c ++ echo_lines msgs)%string]> (files w)) (current_path w)
                      (stderr w) (outputhandler w) (dependencies w) (journal w)).
Proof.
  revert w c. induction msgs as [| m r IH]; intros [fs cwd err h dp j] c Hh Hc;
    cbn [outputhandler files] in Hh, Hc; subst h.
  - cbn. rewrite string_append_nil_r, (insert_id fs sp c Hc). reflexivity.
  - cbn [PRINT_all echo_lines]. unfold bind at 1. unfold PRINT at 1.
    exec. rewrite Hc. cbn [default].
    erewrite IH; [ | reflexivity | cbn [files]; apply lookup_insert_eq ].
    cbn [files current_path stderr outputhandler dependencies journal].
    rewrite insert_insert_eq, !string_append_assoc. reflexivity.
Qed.

(** [handleDependencies] adds exactly the given paths to the set. *)
Lemma handleDependencies_adds (ps : list string) (w : World) :
  handleDependencies ps w
  = (Next tt, mkWorld (files w) (current_path w) (stderr w) (outputhandler w)
                      (list_to_set ps ∪ dependencies w) (journal w)).
Proof.
  revert w. induction ps as [| p r IH]; intros [fs cwd err h dp j].
  - cbn. now rewrite (left_id_L ∅ (∪)).
  - cbn [handleDependencies]. exec. rewrite IH.
    cbn [files current_path stderr outputhandler dependencies journal list_to_set].
    now rewrite (assoc_L (∪)), (comm_L (∪) (list_to_set r) {[p]}).
Qed.

(** Rewrite the list recursions with their exact effect. *)
Ltac exact_effects :=
  match goal with
  | |- context [handleDependencies ?ps ?w] =>
      rewrite (handleDependencies_adds ps w);
      cbn [files current_path stderr outputhandler dependencies journal]
  | |- context [PRINT_all ?m ?w] =>
      erewrite (PRINT_all_to_stream m w);
      [ cbn [files current_path stderr outputhandler dependencies journal]
      | reflexivity
      | cbn [files]; rewrite ?lookup_insert_eq; reflexivity ]
  end.

(** An [.echo] run without a dependency file, in a build with CGAL, whose
    script loads and parses (and whose geometry can be evaluated when the
    full renderer asks for it) returns 0 and leaves in the echo file exactly
    what the script echoed, one message per line; every other file is as
    before, nothing went to the standard error stream and no exporter was
    invoked. *)
Theorem echo_file_holds_the_echoed_lines
    (env : Env) (filename : string)
    (camera : Camera) (output_file original_path : string)
    (renderer : Render.type) (w : World) (contents : string) (root_module : FileModule)
    (Hsuffix : output_suffix output_file = ".echo")
    (Hcgal : ENABLE_CGAL env = true)
    (Hcreate : can_create env (absolute (current_path w) output_file) = true)
    (Hinput : <[absolute (current_path w) output_file := EmptyString]> (files w)
                !! absolute (current_path w) filename = Some contents)
    (Hparse : parse env (script_text env contents)
                    (document_path (current_path w) filename) = Some root_module)
    (Hgeom : renderer = Render.CGAL ->
             is_Some (evaluateGeometry env (root_node_of env root_module))) :
  let r := run env None filename camera output_file original_path renderer w in
  fst r = Some 0%Z
  /\ files (snd r)
     = <[absolute (current_path w) output_file := echo_lines (echoed env root_module)]>
         (files w)
  /\ stderr (snd r) = stderr w
  /\ exports (journal (snd r)) = exports (journal w).
Proof.
  intros r0; subst r0. start_run w output_file.
  all: try match goal with
       | H : ~ In _ recognized_suffixes |- _ =>
           exfalso; apply H; rewrite Hsuffix; cbn; tauto
       end.
  all: try congruence.
  repeat first [ exact_effects | step ].
  all: try (exfalso; destruct Hgeom as [g Hg]; [reflexivity | congruence]).
  all: intros ->; cbn [fst snd files stderr journal].
  all: repeat split; rewrite ?insert_insert_eq; try reflexivity.
  all: unfold exports; rewrite !List.filter_app, !List.length_app; cbn; lia.
Qed.

(** An instance: the sample script sent to [out.echo] in preview mode. *)
Lemma echo_file_witness :
  output_suffix "out.echo" = ".echo"
  /\ files (snd (run (sample_env true true None None) None "in.scad" sample_camera
                     "out.echo" "/home/u" Render.OPENCSG sample_world))
     = <["/home/u/out.echo" := ("ECHO: 1" ++ nl)%string]> (files sample_world).
Proof.
  split; [reflexivity |].
  assert (Hg : Render.OPENCSG = Render.CGAL ->
               is_Some (evaluateGeometry (sample_env true true None None)
                          (root_node_of (sample_env true true None None) sample_module)))
    by discriminate.
  exact (proj1 (proj2 (echo_file_holds_the_echoed_lines
                         (sample_env true true None None) "in.scad" sample_camera
                         "out.echo" "/home/u" Render.OPENCSG sample_world
                         "echo(1); cube(1);" sample_module
                         eq_refl eq_refl eq_refl eq_refl eq_refl Hg))).
Defined.





(** Every output stream a run opens is the destination resolved against
    the invoker's directory ([original_path]), never against the directory
    of the script the run has moved to; the echo stream, opened before that
    move, is resolved against the directory the run starts in. The stream
    is open exactly when the path can be created. *)
Theorem destination_is_resolved_against_the_invoker
    (env : Env) (deps_output_file : option string) (filename : string)
    (camera : Camera) (output_file original_path : string)
    (renderer : Render.type) (w : World)
    (Hstart : journal w = []) :
  let r := run env deps_output_file filename camera output_file original_path renderer w in
  forall path opened,
    In (call_ofstream path opened) (journal (snd r)) ->
    opened = can_create env path
    /\ if String.eqb (output_suffix output_file) ".echo"
       then path = absolute (current_path w) output_file
       else path = absolute original_path output_file.
Proof.
  intros r0; subst r0. start_run w output_file.
  all: subst j; repeat step.
  all: intros ->; cbn [fst snd journal].
  all: match goal with H : Str.to_lower _ = _ |- _ => rewrite H | _ => idtac end.
  all: intros path opened Hin; cbn in Hin |- *.
  all: repeat match goal with
       | H : _ \/ _ |- _ => destruct H
       | H : False |- _ => destruct H
       | H : call_ofstream _ _ = call_ofstream _ _ |- _ => injection H as <- <-
       | H : _ = call_ofstream _ _ |- _ => discriminate H
       end.
  all: split; [congruence | reflexivity].
Qed.

(** An instance: the stream of a cube sent to [sub/out.stl]. *)
Lemma destination_witness :
  journal sample_world = []
  /\ "/home/u/sub/out.stl" = absolute "/home/u" "sub/out.stl".
Proof.
  split; [reflexivity |].
  refine (proj2 (destination_is_resolved_against_the_invoker
                   (sample_env true true (Some (mkGeometry 3)) None) None "in.scad"
                   sample_camera "sub/out.stl" "/home/u" Render.OPENCSG sample_world
                   eq_refl "/home/u/sub/out.stl" true _)).
  vm_compute. tauto.
Defined.

(** A solid or drawing run that returns 0 has evaluated the geometry
    exactly once, found it of the dimension the exporter requires, written
    the dependency file if one was requested, and invoked the exporter
    exactly once, on the destination. *)
Theorem zero_status_means_exported
    (env : Env) (deps_output_file : option string) (filename : string)
    (camera : Camera) (output_file original_path : string)
    (renderer : Render.type) (w : World) (nd : N) (format : FileFormat)
    (Hexporter : exporter_of_suffix (output_suffix output_file) = Some (nd, format))
    (Hstart : journal w = [])
    (Hzero : fst (run env deps_output_file filename camera output_file original_path
                      renderer w) = Some 0%Z) :
  let r := run env deps_output_file filename camera output_file original_path renderer w in
  exists root_module root_geom,
    evaluateGeometry env (root_node_of env root_module) = Some root_geom
    /\ getDimension root_geom = nd
    /\ geometry_evaluations (journal (snd r)) = 1%nat
    /\ exports (journal (snd r)) = 1%nat
    /\ In (call_exportFileByName format output_file) (journal (snd r))
    /\ (forall d, deps_output_file = Some d ->
                  In (call_write_deps d output_file) (journal (snd r))).
Proof.
  intros r0; subst r0. revert Hzero.
  destruct (exporter_of_suffix_cases _ _ _ Hexporter)
    as [(Hs & -> & ->) | [(Hs & -> & ->) | [(Hs & -> & ->) | [(Hs & -> & ->) | (Hs & -> & ->)]]]].
  all: clear Hexporter.
  all: start_run w output_file.
  all: try match goal with
       | H : ~ In _ recognized_suffixes |- _ =>
           exfalso; apply H; rewrite Hs; cbn; tauto
       end.
  all: try congruence.
  all: subst j; repeat step.
  all: intros ->; cbn [fst snd journal]; intros Hzero; try discriminate Hzero.
  all: match goal with
       | Hg : evaluateGeometry _ (root_node_of _ ?m) = Some ?g |- _ => exists m, g
       end.
  all: split; [assumption |].
  all: split; [apply N.eqb_eq; assumption |].
  all: cbn; repeat split; try tauto.
  all: intros d' [= <-]; tauto.
Qed.

(** An instance: a cube sent to [out.stl] returns 0. *)
Lemma zero_status_witness :
  exporter_of_suffix (output_suffix "out.stl") = Some (3%N, OPENSCAD_STL)
  /\ fst (run (sample_env true true (Some (mkGeometry 3)) None) None "in.scad"
              sample_camera "out.stl" "/home/u" Render.OPENCSG sample_world) = Some 0%Z
  /\ exports (journal (snd (run (sample_env true true (Some (mkGeometry 3)) None) None
                                "in.scad" sample_camera "out.stl" "/home/u"
                                Render.OPENCSG sample_world))) = 1%nat.
Proof.
  split; [reflexivity | split; [reflexivity |]].
  destruct (zero_status_means_exported
              (sample_env true true (Some (mkGeometry 3)) None) None "in.scad"
              sample_camera "out.stl" "/home/u" Render.OPENCSG sample_world
              3%N OPENSCAD_STL eq_refl eq_refl eq_refl)
    as (m & g & _ & _ & _ & H & _).
  exact H.
Defined.

(** For a [.csg], [.ast] or [.term] destination the whole run, status and
    final state, is the same whatever the dependency path, the camera, the
    render mode and the presence of CGAL in the build. *)
Theorem text_dumps_ignore_the_rendering_options
    (env : Env) (deps_output_file : option string) (filename : string)
    (camera camera' : Camera) (output_file original_path : string)
    (renderer renderer' : Render.type) (cgal : bool) (w : World)
    (Hsuffix : In (output_suffix output_file) [".csg"; ".ast"; ".term"]) :
  run env deps_output_file filename camera output_file original_path renderer w
  = run (with_ENABLE_CGAL cgal env) None filename camera' output_file original_path
        renderer' w.
Proof.
  unfold run, cmdline. fold (output_suffix output_file).
  destruct (assign_output_file_cases (output_suffix output_file) output_file).
  all: try match goal with
       | H : ~ In _ recognized_suffixes |- _ =>
           exfalso; apply H; cbn in Hsuffix |- *; intuition auto
       end.
  all: match goal with H : output_suffix _ = _ |- _ => rewrite H in Hsuffix end.
  all: try (exfalso; cbn in Hsuffix; intuition congruence).
  all: reflexivity.
Qed.

(** An instance: [out.csg] with and without [-d], [--render] and CGAL. *)
Lemma text_dumps_witness :
  In (output_suffix "out.csg") [".csg"; ".ast"; ".term"]
  /\ run (sample_env true true None None) (Some "out.d") "in.scad" sample_camera
         "out.csg" "/home/u" Render.CGAL sample_world
     = run (with_ENABLE_CGAL false (sample_env true true None None)) None "in.scad"
           (mkCamera 1 1) "out.csg" "/home/u" Render.OPENCSG sample_world.
Proof.
  assert (H1 : In (output_suffix "out.csg") [".csg"; ".ast"; ".term"]).
  { vm_compute. tauto. }
  split; [exact H1 |].
  exact (text_dumps_ignore_the_rendering_options
           (sample_env true true None None) (Some "out.d") "in.scad" sample_camera
           (mkCamera 1 1) "out.csg" "/home/u" Render.CGAL Render.OPENCSG false
           sample_world H1).
Defined.

(** An [.ast] run whose script loads and parses and whose destination can
    be created returns 0; the destination holds the dump of the parsed
    module and a newline, no evaluator was invoked, and the process is left
    in the directory of the script. *)
Theorem ast_dump_needs_no_evaluation
    (env : Env) (deps_output_file : option string) (filename : string)
    (camera : Camera) (output_file original_path : string)
    (renderer : Render.type) (w : World) (contents : string) (root_module : FileModule)
    (Hsuffix : output_suffix output_file = ".ast")
    (Hstart : journal w = [])
    (Hinput : files w !! absolute (current_path w) filename = Some contents)
    (Hparse : parse env (script_text env contents)
                    (document_path (current_path w) filename) = Some root_module)
    (Hcreate : can_create env (absolute original_path output_file) = true) :
  let r := run env deps_output_file filename camera output_file original_path renderer w in
  fst r = Some 0%Z
  /\ files (snd r) !! absolute original_path output_file
     = Some (module_dump root_module ++ nl)
  /\ term_evaluations (journal (snd r)) = 0%nat
  /\ geometry_evaluations (journal (snd r)) = 0%nat
  /\ current_path (snd r) = document_path (current_path w) filename.
Proof.
  intros r0; subst r0. start_run w output_file.
  all: try match goal with
       | H : ~ In _ recognized_suffixes |- _ =>
           exfalso; apply H; rewrite Hsuffix; cbn; tauto
       end.
  all: try congruence.
  all: subst j; repeat step.
  all: intros ->; cbn [fst snd files journal current_path].
  all: repeat split; rewrite ?lookup_insert_eq; reflexivity.
Qed.

(** An instance: the sample script sent to [out.ast]. *)
Lemma ast_dump_witness :
  output_suffix "out.ast" = ".ast"
  /\ files (snd (run (sample_env true true None None) None "in.scad" sample_camera
                     "out.ast" "/home/u" Render.OPENCSG sample_world))
       !! "/home/u/out.ast" = Some ("cube(1);" ++ nl).
Proof.
  split; [reflexivity |].
  exact (proj1 (proj2 (ast_dump_needs_no_evaluation
                         (sample_env true true None None) None "in.scad" sample_camera
                         "out.ast" "/home/u" Render.OPENCSG sample_world
                         "echo(1); cube(1);" sample_module
                         eq_refl eq_refl eq_refl eq_refl eq_refl))).
Defined.

(** A [.term] run whose script loads and parses, whose boolean-term
    evaluation yields a term and whose destination can be created returns
    0; the destination holds the dump of that term and a newline, the term
    evaluator was invoked once and the geometry evaluator not at all, and
    the process is back in the invoker's directory. *)
Theorem term_dump_of_an_evaluated_term
    (env : Env) (deps_output_file : option string) (filename : string)
    (camera : Camera) (output_file original_path : string)
    (renderer : Render.type) (w : World) (contents : string)
    (root_module : FileModule) (root_raw_term : CSGTerm)
    (Hsuffix : output_suffix output_file = ".term")
    (Hstart : journal w = [])
    (Hinput : files w !! absolute (current_path w) filename = Some contents)
    (Hparse : parse env (script_text env contents)
                    (document_path (current_path w) filename) = Some root_module)
    (Hterm : evaluateCSGTerm env (root_node_of env root_module) = Some root_raw_term)
    (Hcreate : can_create env (absolute original_path output_file) = true) :
  let r := run env deps_output_file filename camera output_file original_path renderer w in
  fst r = Some 0%Z
  /\ files (snd r) !! absolute original_path output_file
     = Some (term_dump root_raw_term ++ nl)
  /\ term_evaluations (journal (snd r)) = 1%nat
  /\ geometry_evaluations (journal (snd r)) = 0%nat
  /\ current_path (snd r) = original_path.
Proof.
  intros r0; subst r0. start_run w output_file.
  all: try match goal with
       | H : ~ In _ recognized_suffixes |- _ =>
           exfalso; apply H; rewrite Hsuffix; cbn; tauto
       end.
  all: try congruence.
  all: subst j; repeat step.
  all: intros ->; cbn [fst snd files journal current_path].
  all: repeat split; rewrite ?lookup_insert_eq; reflexivity.
Qed.

(** An instance: the sample script sent to [out.term]. *)
Lemma term_dump_witness :
  output_suffix "out.term" = ".term"
  /\ files (snd (run (sample_env true true None (Some (mkCSGTerm "cube"))) None "in.scad"
                     sample_camera "out.term" "/home/u" Render.OPENCSG sample_world))
       !! "/home/u/out.term" = Some ("cube" ++ nl).
Proof.
  split; [reflexivity |].
  exact (proj1 (proj2 (term_dump_of_an_evaluated_term
                         (sample_env true true None (Some (mkCSGTerm "cube"))) None
                         "in.scad" sample_camera "out.term" "/home/u" Render.OPENCSG
                         sample_world "echo(1); cube(1);" sample_module (mkCSGTerm "cube")
                         eq_refl eq_refl eq_refl eq_refl eq_refl eq_refl))).
Defined.



(** In a build without CGAL a solid, drawing or raster run whose script
    loads and parses returns 1 after the message that CGAL is missing:
    nothing is evaluated, no dependency file and no output is written. *)
Theorem build_without_CGAL_exports_nothing
    (env : Env) (deps_output_file : option string) (filename : string)
    (camera : Camera) (output_file original_path : string)
    (renderer : Render.type) (w : World) (contents : string) (root_module : FileModule)
    (Hsuffix : In (output_suffix output_file) deps_suffixes)
    (Hcgal : ENABLE_CGAL env = false)
    (Hhandler : outputhandler w = None)
    (Hinput : files w !! absolute (current_path w) filename = Some contents)
    (Hparse : parse env (script_text env contents)
                    (document_path (current_path w) filename) = Some root_module) :
  let r := run env deps_output_file filename camera output_file original_path renderer w in
  let input := absolute (current_path w) filename in
  fst r = Some 1%Z
  /\ files (snd r) = files w
  /\ journal (snd r)
     = (journal w ++ [call_handle_dep input; call_ifstream input true;
                      call_parse; call_instantiate])%list
  /\ stderr (snd r)
     = (stderr w ++ echoed env root_module
          ++ [("OpenSCAD has been compiled without CGAL support!" ++ nl)%string])%list.
Proof.
  intros r0 input; subst r0 input. start_run w output_file.
  all: try match goal with
       | H : ~ In _ recognized_suffixes |- _ =>
           exfalso; apply H; cbn in Hsuffix |- *; intuition auto
       end.
  all: match goal with H : Str.to_lower _ = _ |- _ => rewrite H in Hsuffix end.
  all: try (exfalso; cbn in Hsuffix; intuition congruence).
  all: subst h; repeat step.
  all: intros ->; cbn [fst snd files stderr journal]; no_handler.
  all: repeat split; rewrite <- ?app_assoc; reflexivity.
Qed.

(** An instance: [out.stl] in a build without CGAL. *)
Lemma build_without_CGAL_witness :
  In (output_suffix "out.stl") deps_suffixes
  /\ ENABLE_CGAL (sample_env false true (Some (mkGeometry 3)) None) = false
  /\ fst (run (sample_env false true (Some (mkGeometry 3)) None) None "in.scad"
              sample_camera "out.stl" "/home/u" Render.OPENCSG sample_world) = Some 1%Z.
Proof.
  assert (H1 : In (output_suffix "out.stl") deps_suffixes).
  { vm_compute. tauto. }
  split; [exact H1 | split; [reflexivity |]].
  exact (proj1 (build_without_CGAL_exports_nothing
                  (sample_env false true (Some (mkGeometry 3)) None) None "in.scad"
                  sample_camera "out.stl" "/home/u" Render.OPENCSG sample_world
                  "echo(1); cube(1);" sample_module H1 eq_refl eq_refl eq_refl eq_refl)).
Defined.

(** ** The options of the camera *)

Lemma split_length (sep : ascii) (s : string) :
  length (split sep s) = S (count_char sep s).
Proof.
  induction s as [| c r IH]; [reflexivity |].
  cbn [split count_char]. destruct (Ascii.eqb c sep).
  - cbn. now rewrite IH.
  - destruct (split sep r) as [| t ts]; cbn in *; lia.
Qed.

Lemma split_two_fields (sep : ascii) (s : string) :
  count_char sep s = 1%nat -> exists a b, split sep s = [a; b].
Proof.
  intros H. pose proof (split_length sep s) as L. rewrite H in L.
  destruct (split sep s) as [| a [| b [| c r]]]; cbn in L; try lia. eauto.
Qed.

Lemma fields_six_or_seven (s : string) :
  (length (split "," s) =? 6)%nat || (length (split "," s) =? 7)%nat = true
  <-> (count_char "," s = 5%nat \/ count_char "," s = 6%nat).
Proof.
  rewrite split_length, orb_true_iff, !Nat.eqb_eq. lia.
Qed.

(** A [--camera] value that does not have six or seven comma-separated
    fields is rejected with the two-line message and [exit(1)]; with six
    or seven fields of which one is not a number, the cast throws. *)
Theorem camera_option_needs_six_or_seven_numbers
    (plat : Platform) (vm : variables_map) (s : string)
    (Hgiven : vm_camera vm = Some s) :
  (count_char "," s <> 5%nat -> count_char "," s <> 6%nat ->
   get_camera plat vm
   = rejected ["Camera setup requires either 7 numbers for Gimbal Camera" ++ nl;
               "or 6 numbers for Vector Camera" ++ nl])
  /\ (count_char "," s = 5%nat \/ count_char "," s = 6%nat ->
      forallb (is_double plat) (split "," s) = false ->
      get_camera plat vm = thrown).
Proof.
  unfold get_camera. rewrite Hgiven. split.
  - intros H5 H6.
    destruct ((length (split "," s) =? 6)%nat || (length (split "," s) =? 7)%nat) eqn:E.
    + apply fields_six_or_seven in E. lia.
    + reflexivity.
  - intros Hn Hd. apply fields_six_or_seven in Hn. rewrite Hn, Hd. reflexivity.
Qed.

(** An instance: [--camera=1,2,3]. *)
Lemma camera_option_witness :
  count_char "," "1,2,3" = 2%nat
  /\ get_camera sample_platform
       (sample_options false false None (Some "1,2,3") None None None None None [])
     = rejected ["Camera setup requires either 7 numbers for Gimbal Camera" ++ nl;
                 "or 6 numbers for Vector Camera" ++ nl].
Proof.
  split; [reflexivity |].
  apply (proj1 (camera_option_needs_six_or_seven_numbers sample_platform
                  (sample_options false false None (Some "1,2,3") None None None None None [])
                  "1,2,3" eq_refl)); cbn; lia.
Defined.

(** The part of [get_camera] before the projection, when the camera option
    is accepted. *)
Lemma get_camera_after_camera_option (plat : Platform) (vm : variables_map) :
  camera_option_accepted plat vm ->
  exists camera,
    match vm_camera vm with
    | Some s =>
        (if (length (split "," s) =? 6)%nat || (length (split "," s) =? 7)%nat then
           if forallb (is_double plat) (split "," s)
           then parsed (Camera_setup plat (split "," s) (Camera_new plat))
           else thrown
         else
           rejected ["Camera setup requires either 7 numbers for Gimbal Camera" ++ nl;
                     "or 6 numbers for Vector Camera" ++ nl])
    | None => parsed (Camera_new plat)
    end = parsed camera.
Proof.
  unfold camera_option_accepted. intros H.
  destruct (vm_camera vm) as [s |]; [| eauto].
  destruct (H s eq_refl) as [Hn Hd]. apply fields_six_or_seven in Hn.
  rewrite Hn, Hd. eauto.
Qed.

(** The last stage of [get_camera] only sets the image size. *)
Lemma size_stage_inv (X : Parsed (Z * Z)) (c camera : Cam.t) :
  (let? (w, h) := X in parsed (Cam.set_pixels w h c)) = parsed camera ->
  exists w h, X = parsed (w, h) /\ camera = Cam.set_pixels w h c.
Proof.
  destruct X as [[w h] | m |]; cbn; try discriminate.
  intros [= <-]. eauto.
Qed.

(** [--projection] accepts exactly five spellings, case-sensitively:
    anything else is rejected with the message and [exit(1)]; an accepted
    camera is orthogonal for [o], [ortho], [orthogonal] and perspective for
    [p], [perspective]. *)
Theorem projection_option_spellings
    (plat : Platform) (vm : variables_map) (proj : string)
    (Hcamera : camera_option_accepted plat vm)
    (Hgiven : vm_projection vm = Some proj) :
  (~ In proj ["o"; "ortho"; "orthogonal"; "p"; "perspective"] ->
   get_camera plat vm
   = rejected ["projection needs to be 'o' or 'p' for ortho or perspective" ++ nl])
  /\ (forall camera, get_camera plat vm = parsed camera ->
        (In proj ["o"; "ortho"; "orthogonal"] /\ Cam.projection camera = Cam.ORTHOGONAL)
        \/ (In proj ["p"; "perspective"] /\ Cam.projection camera = Cam.PERSPECTIVE)).
Proof.
  destruct (get_camera_after_camera_option plat vm Hcamera) as [c0 E].
  unfold get_camera. rewrite E, Hgiven. cbn [and_then].
  destruct (String.eqb proj "o") eqn:E1;
    [apply String.eqb_eq in E1 | apply String.eqb_neq in E1].
  2: destruct (String.eqb proj "ortho") eqn:E2;
    [apply String.eqb_eq in E2 | apply String.eqb_neq in E2].
  3: destruct (String.eqb proj "orthogonal") eqn:E3;
    [apply String.eqb_eq in E3 | apply String.eqb_neq in E3].
  4: destruct (String.eqb proj "p") eqn:E4;
    [apply String.eqb_eq in E4 | apply String.eqb_neq in E4].
  5: destruct (String.eqb proj "perspective") eqn:E5;
    [apply String.eqb_eq in E5 | apply String.eqb_neq in E5].
  all: cbn [orb and_then]; split.
  all: try (intros Hnot; exfalso; apply Hnot; subst proj; cbn; tauto).
  all: try reflexivity.
  all: try discriminate.
  all: intros camera Hc; apply size_stage_inv in Hc;
       destruct Hc as (w & h & _ & ->); subst proj; cbn; tauto.
Qed.

(** An instance: [--projection=O], which is not one of the spellings. *)
Lemma projection_option_witness :
  ~ In "O" ["o"; "ortho"; "orthogonal"; "p"; "perspective"]
  /\ get_camera sample_platform
       (sample_options false false None None None (Some "O") None None None [])
     = rejected ["projection needs to be 'o' or 'p' for ortho or perspective" ++ nl].
Proof.
  assert (H1 : ~ In "O" ["o"; "ortho"; "orthogonal"; "p"; "perspective"]).
  { cbn. intuition discriminate. }
  split; [exact H1 |].
  refine (proj1 (projection_option_spellings sample_platform
                   (sample_options false false None None None (Some "O") None None None [])
                   "O" _ eq_refl) H1).
  intros s Hs. discriminate Hs.
Defined.

(** The part of [get_camera] before the image size, when the camera and
    projection options are accepted. *)
Lemma get_camera_before_imgsize (plat : Platform) (vm : variables_map) :
  camera_option_accepted plat vm ->
  projection_option_accepted vm ->
  exists camera,
    get_camera plat vm
    = (let? (w, h) :=
         match vm_imgsize vm with
         | Some s =>
             if negb (length (split "," s) =? 2)%nat then
               rejected ["Need 2 numbers for imgsize" ++ nl]
             else
               match lexical_cast_int plat (nth 0 (split "," s) EmptyString) with
               | None => thrown
               | Some w =>
                   match lexical_cast_int plat (nth 1 (split "," s) EmptyString) with
                   | None => thrown
                   | Some h => parsed (w, h)
                   end
               end
         | None => parsed (img_width plat, img_height plat)
         end in
       parsed (Cam.set_pixels w h camera))
    /\ (vm_viewall vm = true -> Cam.viewall camera = true)
    /\ (vm_autocenter vm = true -> Cam.autocenter camera = true).
Proof.
  intros Hcamera Hproj.
  destruct (get_camera_after_camera_option plat vm Hcamera) as [c0 E].
  unfold get_camera. rewrite E. cbn [and_then].
  unfold projection_option_accepted in Hproj.
  destruct (vm_projection vm) as [proj |].
  - specialize (Hproj proj eq_refl). cbn in Hproj.
    destruct Hproj as [<- | [<- | [<- | [<- | [<- | []]]]]]; cbn [String.eqb orb and_then].
    all: eexists; split; [reflexivity |].
    all: destruct (vm_viewall vm), (vm_autocenter vm); cbn; split; auto; discriminate.
  - cbn [and_then]. eexists; split; [reflexivity |].
    destruct (vm_viewall vm), (vm_autocenter vm); cbn; split; auto; discriminate.
Qed.

(** An [--imgsize] value must contain exactly one comma: otherwise it is
    rejected with "Need 2 numbers for imgsize" and [exit(1)]. With one
    comma the two fields are cast to integers; they become the width and
    the height of the camera, and a field that is not an integer makes the
    cast throw. *)
Theorem imgsize_option_needs_two_numbers
    (plat : Platform) (vm : variables_map) (s : string)
    (Hcamera : camera_option_accepted plat vm)
    (Hprojection : projection_option_accepted vm)
    (Hgiven : vm_imgsize vm = Some s) :
  (count_char "," s <> 1%nat ->
   get_camera plat vm = rejected ["Need 2 numbers for imgsize" ++ nl])
  /\ (count_char "," s = 1%nat ->
      exists a b,
        split "," s = [a; b]
        /\ match lexical_cast_int plat a, lexical_cast_int plat b with
           | Some w, Some h =>
               exists camera,
                 get_camera plat vm = parsed camera
                 /\ Cam.pixel_width camera = w /\ Cam.pixel_height camera = h
           | _, _ => get_camera plat vm = thrown
           end).
Proof.
  destruct (get_camera_before_imgsize plat vm Hcamera Hprojection) as (c0 & E & _).
  rewrite E, Hgiven. clear E. split.
  - intros Hn.
    assert (L : (length (split "," s) =? 2)%nat = false)
      by (apply Nat.eqb_neq; rewrite split_length; lia).
    rewrite L. reflexivity.
  - intros H1. destruct (split_two_fields "," s H1) as (a & b & Hs).
    exists a, b. split; [exact Hs |]. rewrite Hs. cbn [length Nat.eqb negb nth].
    destruct (lexical_cast_int plat a) as [w |]; [| reflexivity].
    destruct (lexical_cast_int plat b) as [h |]; [| reflexivity].
    cbn. eauto.
Qed.

(** An instance: [--imgsize=640,480]. *)
Lemma imgsize_option_witness :
  count_char "," "640,480" = 1%nat
  /\ exists a b, split "," "640,480" = [a; b].
Proof.
  split; [reflexivity |].
  assert (Hc : camera_option_accepted sample_platform
                 (sample_options false false None None (Some "640,480") None None None None []))
    by (intros s Hs; discriminate Hs).
  assert (Hp : projection_option_accepted
                 (sample_options false false None None (Some "640,480") None None None None []))
    by (intros s Hs; discriminate Hs).
  destruct (proj2 (imgsize_option_needs_two_numbers sample_platform
                     (sample_options false false None None (Some "640,480") None None None
                        None [])
                     "640,480" Hc Hp eq_refl) eq_refl) as (a & b & Hs & _).
  exists a, b. exact Hs.
Defined.

(** In the camera [get_camera] returns, [--viewall] and [--autocenter]
    are set when given (whatever the camera setup did before), and without
    [--imgsize] the image has the size of the render settings. *)
Theorem accepted_camera_carries_the_options
    (plat : Platform) (vm : variables_map) (camera : Cam.t)
    (Hcamera : camera_option_accepted plat vm)
    (Hprojection : projection_option_accepted vm)
    (Hparsed : get_camera plat vm = parsed camera) :
  (vm_viewall vm = true -> Cam.viewall camera = true)
  /\ (vm_autocenter vm = true -> Cam.autocenter camera = true)
  /\ (vm_imgsize vm = None ->
      Cam.pixel_width camera = img_width plat
      /\ Cam.pixel_height camera = img_height plat).
Proof.
  destruct (get_camera_before_imgsize plat vm Hcamera Hprojection) as (c0 & E & Hv & Ha).
  rewrite E in Hparsed. apply size_stage_inv in Hparsed.
  destruct Hparsed as (w & h & Hwh & ->). cbn.
  split; [exact Hv | split; [exact Ha |]].
  intros Hi. rewrite Hi in Hwh. now injection Hwh as <- <-.
Qed.

(** An instance: [--viewall] without an image size. *)
Lemma accepted_camera_witness :
  get_camera sample_platform (png_options false)
  = parsed (Cam.mk Cam.NONE Cam.PERSPECTIVE true false 512 512)
  /\ Cam.viewall (Cam.mk Cam.NONE Cam.PERSPECTIVE true false 512 512) = true.
Proof.
  split; [reflexivity |].
  assert (Hc : camera_option_accepted sample_platform (png_options false))
    by (intros s Hs; discriminate Hs).
  assert (Hp : projection_option_accepted (png_options false))
    by (intros s Hs; discriminate Hs).
  exact (proj1 (accepted_camera_carries_the_options sample_platform (png_options false)
                  (Cam.mk Cam.NONE Cam.PERSPECTIVE true false 512 512)
                  Hc Hp eq_refl) eq_refl).
Defined.

(** ** [main] *)

(** Unfold the statements of [main] and reduce. *)
Ltac execp :=
  cbv beta iota zeta delta
    [main take_option call_cmdline gui help version info print cout whenp
     bindp retp end_ exit_ getp modifyp
     set_world add_stdout set_debug set_openCSGTermLimit set_make_command set_commands
     set_currentdir add_feature
     world stdout debug openCSGTermLimit make_command commands currentdir features
     vm_help vm_version vm_info vm_render vm_preview vm_csglimit vm_camera vm_autocenter
     vm_viewall vm_imgsize vm_projection vm_debug vm_o vm_s vm_x vm_d vm_m vm_D vm_enable
     vm_input_file
     PRINT Echostream_output write when get modify bind ret add_stderr set_files
     files current_path stderr outputhandler dependencies journal
     stream_path is_open non_null fst snd orb andb negb].

Lemma enable_features_spec (fs : list string) (p : Process) :
  enable_features fs p
  = mkProcess (world p) (stdout p) (debug p) (openCSGTermLimit p) (make_command p)
              (commands p) (currentdir p) (features p ++ fs).
Proof.
  revert p. induction fs as [| f r IH]; intros [w out dbg lim mk cc cd ft].
  - cbn. now rewrite app_nil_r.
  - cbn [enable_features fold_left]. fold (enable_features r). rewrite IH.
    cbn. now rewrite <- app_assoc.
Qed.

(** The options that cannot end the process, as one state change each. *)
Lemma csglimit_option_spec (vm : variables_map) (p : Process) :
  csglimit_option vm p
  = (inr tt, set_openCSGTermLimit (default (openCSGTermLimit p) (vm_csglimit vm)) p).
Proof.
  unfold csglimit_option. destruct p, (vm_csglimit vm); reflexivity.
Qed.

Lemma enable_option_spec (plat : Platform) (vm : variables_map) (p : Process) :
  enable_option plat vm p
  = (inr tt,
     mkProcess (world p) (stdout p) (debug p) (openCSGTermLimit p) (make_command p)
               (commands p) (currentdir p)
               (features p ++ if ENABLE_EXPERIMENTAL plat then vm_enable vm else [])).
Proof.
  unfold enable_option. destruct (ENABLE_EXPERIMENTAL plat); cbn.
  - unfold modifyp. now rewrite enable_features_spec.
  - destruct p. unfold retp. cbn. now rewrite app_nil_r.
Qed.

Lemma take_option_unset (plat : Platform) (progname : string) (given : option string) :
  take_option plat progname None given None = retp given.
Proof. destruct given; reflexivity. Qed.

(** A list of messages printed by the process: as [PRINT_all] in the
    world. *)
Lemma print_all_spec (msgs : list string) (p : Process) :
  exists fs' err',
    print_all msgs p
    = (inr tt,
       mkProcess (mkWorld fs' (current_path (world p)) err' (outputhandler (world p))
                          (dependencies (world p)) (journal (world p)))
                 (stdout p) (debug p) (openCSGTermLimit p) (make_command p)
                 (commands p) (currentdir p) (features p))
    /\ (outputhandler (world p) = None ->
        fs' = files (world p) /\ err' = (stderr (world p) ++ msgs)%list).
Proof.
  revert p. induction msgs as [| m r IH]; intros [[fs cwd err h dp j] out dbg lim mk cc cd ft].
  - exists fs, err. cbn. rewrite app_nil_r. auto.
  - cbn [print_all]. unfold bindp at 1. unfold print at 1. unfold modifyp.
    destruct h as [[sp [|]] |]; execp.
    + destruct (IH (mkProcess (mkWorld (<[sp:=default EmptyString (fs !! sp) +:+ m +:+ nl]> fs)
                                       cwd err (Some (mkOfstream sp true)) dp j)
                              out dbg lim mk cc cd ft)) as (fs' & err' & E & _).
      rewrite E. exists fs', err'. split; [reflexivity | discriminate].
    + destruct (IH (mkProcess (mkWorld fs cwd err (Some (mkOfstream sp false)) dp j)
                              out dbg lim mk cc cd ft)) as (fs' & err' & E & _).
      rewrite E. exists fs', err'. split; [reflexivity | discriminate].
    + destruct (IH (mkProcess (mkWorld fs cwd (err ++ [m]) None dp j)
                              out dbg lim mk cc cd ft)) as (fs' & err' & E & Hn).
      rewrite E. exists fs', err'. split; [reflexivity |].
      intros _. destruct (Hn eq_refl) as [-> ->]. cbn. rewrite <- app_assoc. auto.
Qed.

(** The term whose value the evaluation of [t] waits for. *)
Ltac stuck_head f :=
  match f with
  | match ?x with _ => _ end => stuck x
  | ?g _ => stuck_head g
  end
with stuck t :=
  match t with
  | match ?x with _ => _ end => stuck x
  | ?f _ => stuck_head f
  | _ => t
  end.

(** One step of [main]: reduce, use the state change of an option that
    cannot fail, or split on the value the evaluation waits for. *)
Ltac stepp :=
  first
    [ progress execp
    | rewrite csglimit_option_spec
    | rewrite enable_option_spec
    | rewrite take_option_unset
    | match goal with
      | |- context [print_all ?m ?p] =>
          let fs' := fresh "fs" in let err' := fresh "err" in
          let E := fresh "E" in let Hn := fresh "Hn" in
          destruct (print_all_spec m p) as (fs' & err' & E & Hn);
          rewrite E; clear E;
          cbn [world files outputhandler stderr current_path dependencies journal
               stdout debug openCSGTermLimit make_command commands currentdir features]
            in Hn |- *
      end
    | lazymatch goal with
      | |- _ = match ?x with _ => _ end -> _ =>
          let s := stuck x in
          first [ match goal with H : s = _ |- _ => rewrite H end
                | destruct s eqn:? ]
      end ].

(** Start a proof about [main]: name the run, the fields of the state and
    of the options. *)
Ltac start_main p vm :=
  match goal with
  | |- context [main ?a ?b ?c ?d ?e] =>
      let R := fresh "R" in let HR := fresh "HR" in
      remember (main a b c d e) as R eqn:HR; revert HR
  end;
  destruct p as [[fs cwd err h dp j] out dbg lim mk cc cd ft];
  destruct vm;
  unfold no_information_option, output_options_given, the_output_option in *;
  cbn [world outputhandler journal files current_path stderr make_command commands
       vm_help vm_version vm_info vm_render vm_preview vm_csglimit vm_camera
       vm_autocenter vm_viewall vm_imgsize vm_projection vm_debug vm_o vm_s vm_x vm_d
       vm_m vm_D vm_enable vm_input_file] in *.

(** An option line that [po::store] rejects, [--help] and [--version] end
    the process with status 1 (also [--version]) before anything else is
    looked at: no file is touched, no collaborator is invoked and nothing is
    written to the standard output. *)
Theorem help_version_and_bad_options_exit_with_one
    (plat : Platform) (env : Env) (progname : string)
    (args : string + variables_map) (p : Process)
    (Hargs : match args with
             | inl _ => True
             | inr vm => vm_help vm = true \/ vm_version vm = true
             end)
    (Hhandler : outputhandler (world p) = None) :
  let r := main plat env progname args p in
  fst r = inl (exited 1%Z)
  /\ files (world (snd r)) = files (world p)
  /\ journal (world (snd r)) = journal (world p)
  /\ stdout (snd r) = stdout p.
Proof.
  intros r0; subst r0.
  destruct args as [what | vm].
  - destruct p as [[fs cwd err h dp j] out dbg lim mk cc cd ft].
    cbn [world outputhandler] in Hhandler. subst h. execp. auto.
  - start_main p vm. subst h. repeat stepp.
    all: intros ->; cbn [fst snd world files journal stdout]; auto.
    all: destruct Hargs; discriminate.
Qed.

(** An instance: [--help] next to a complete command line. *)
Lemma help_witness :
  outputhandler (world sample_process) = None
  /\ fst (main sample_platform (sample_env true true None None) "openscad"
               (inr (sample_options true false None None None None (Some "out.stl") None
                       None ["in.scad"]))
               sample_process) = inl (exited 1%Z).
Proof.
  split; [reflexivity |].
  exact (proj1 (help_version_and_bad_options_exit_with_one sample_platform
                  (sample_env true true None None) "openscad"
                  (inr (sample_options true false None None None None (Some "out.stl") None
                          None ["in.scad"]))
                  sample_process (or_introl eq_refl) eq_refl)).
Defined.

(** [--info] (without [--help] and [--version]) prints the library
    information and ends the process: with status 0 and the renderer
    information when the OpenGL view can be created, with status 1 when
    it cannot. No file is touched. *)
Theorem info_reports_and_exits
    (plat : Platform) (env : Env) (progname : string)
    (vm : variables_map) (p : Process)
    (Hhelp : vm_help vm = false)
    (Hversion : vm_version vm = false)
    (Hinfo : vm_info vm = true)
    (Hhandler : outputhandler (world p) = None) :
  let r := main plat env progname (inr vm) p in
  fst r = inl (exited (match OffscreenView_new plat with inl _ => 1 | inr _ => 0 end)%Z)
  /\ files (world (snd r)) = files (world p)
  /\ journal (world (snd r)) = journal (world p)
  /\ stdout (snd r)
     = (stdout p ++ [(LibraryInfo_info plat ++ nl ++ nl)%string]
          ++ match OffscreenView_new plat with
             | inl _ => []
             | inr renderer_info => [(renderer_info ++ nl)%string]
             end)%list.
Proof.
  intros r0; subst r0. start_main p vm. subst. repeat stepp.
  all: intros ->; cbn [fst snd world files journal stdout];
       rewrite <- ?app_assoc; auto.
Qed.

(** An instance: [--info] with a working OpenGL view. *)
Lemma info_witness :
  vm_info info_options = true
  /\ fst (main sample_platform (sample_env true true None None) "openscad"
               (inr info_options) sample_process) = inl (exited 0%Z).
Proof.
  split; [reflexivity |].
  exact (proj1 (info_reports_and_exits sample_platform (sample_env true true None None)
                  "openscad" info_options sample_process
                  eq_refl eq_refl eq_refl eq_refl)).
Defined.

(** [main] ends the process with status 1, before any file is touched or
    any collaborator of [cmdline] is invoked, when two of [-o], [-s], [-x]
    are given, when more than one input file is given (in a build without
    MDI), when a camera option is rejected, when an output file is given
    without an input file, and when no output file is given and the GUI
    cannot be used. *)
Theorem usage_errors_exit_before_any_file_is_touched
    (plat : Platform) (env : Env) (progname : string)
    (vm : variables_map) (p : Process)
    (Hinfo : no_information_option vm)
    (Hhandler : outputhandler (world p) = None)
    (Herror :
       (2 <= output_options_given vm)%nat
       \/ (ENABLE_MDI plat = false /\ (1 < length (vm_input_file vm))%nat)
       \/ (exists msgs, get_camera plat vm = rejected msgs)
       \/ (get_camera plat vm <> thrown
           /\ ((1 <= output_options_given vm)%nat /\ vm_input_file vm = []
               \/ output_options_given vm = 0%nat /\ QtUseGUI plat = false))) :
  let r := main plat env progname (inr vm) p in
  fst r = inl (exited 1%Z)
  /\ files (world (snd r)) = files (world p)
  /\ journal (world (snd r)) = journal (world p).
Proof.
  intros r0; subst r0. start_main p vm.
  destruct Hinfo as (-> & -> & ->). subst h.
  repeat stepp.
  all: intros ->; cbn [fst snd world files journal]; no_handler.
  all: try (repeat split; reflexivity).
  all: exfalso; cbn in Herror;
       repeat match goal with
       | H : (_ <? _)%nat = false |- _ => apply Nat.ltb_ge in H
       | H : (_ =? _)%nat = false |- _ => apply Nat.eqb_neq in H
       | H : (_ =? _)%nat = true |- _ => apply Nat.eqb_eq in H
       end;
       cbn [length] in *;
       destruct Herror as [H | [[H1 H2] | [[m H] | [H0 [[H1 H2] | [H1 H2]]]]]];
       try lia; try congruence; try discriminate.
Qed.

(** An instance: [-o a.stl -s b.stl in.scad]. *)
Lemma usage_errors_witness :
  (2 <= output_options_given
          (sample_options false false None None None None (Some "a.stl") (Some "b.stl")
             None ["in.scad"]))%nat
  /\ fst (main sample_platform (sample_env true true None None) "openscad"
               (inr (sample_options false false None None None None (Some "a.stl")
                       (Some "b.stl") None ["in.scad"]))
               sample_process) = inl (exited 1%Z).
Proof.
  assert (H2 : (2 <= output_options_given
                      (sample_options false false None None None None (Some "a.stl")
                         (Some "b.stl") None ["in.scad"]))%nat) by (cbn; lia).
  split; [exact H2 |].
  exact (proj1 (usage_errors_exit_before_any_file_is_touched sample_platform
                  (sample_env true true None None) "openscad"
                  (sample_options false false None None None None (Some "a.stl")
                     (Some "b.stl") None ["in.scad"])
                  sample_process (conj eq_refl (conj eq_refl eq_refl)) eq_refl
                  (or_introl H2))).
Defined.

(** In command-line mode [main] runs [cmdline] on the world with the notes
    printed, and returns what it returns. *)
Lemma main_cmdline_mode
    (plat : Platform) (env : Env) (progname : string)
    (vm : variables_map) (p : Process) (output_file filename : string)
    (rest : list string)
    (cam : Cam.t) :
  no_information_option vm ->
  outputhandler (world p) = None ->
  the_output_option vm = Some output_file ->
  vm_m vm = None \/ make_command p = None ->
  vm_input_file vm = filename :: rest ->
  ENABLE_MDI plat = true \/ rest = [] ->
  get_camera plat vm = parsed cam ->
  let w0 := mkWorld (files (world p)) (current_path (world p))
                    (stderr (world p) ++ notes vm) None
                    (dependencies (world p)) (journal (world p)) in
  let c := run (with_commands (commands p ++ definitions (vm_D vm)) env) (vm_d vm)
               filename (camera_of cam) output_file (current_path (world p))
               (select_renderer vm) w0 in
  let r := main plat env progname (inr vm) p in
  fst r = match fst c with Some rc => inr rc | None => inl faulted end
  /\ world (snd r) = snd c.
Proof.
  intros Hinfo Hhandler Hout Hmake Hinputs Hone Hcamera w0 c r0; subst w0 c r0.
  start_main p vm.
  destruct Hinfo as (-> & -> & ->). subst h vm_input_file0.
  destruct vm_o0, vm_s0, vm_x0; try discriminate Hout; injection Hout as ->.
  all: destruct vm_debug0; cbn [notes vm_debug vm_s vm_x non_null app].
  all: rewrite <- ?app_assoc, ?app_nil_r; cbn [app].
  all: repeat stepp.
  all: intros ->; cbn [fst snd world].
  all: rewrite <- ?app_assoc in *; cbn [app] in *.
  all: try match goal with H : run _ _ _ _ _ _ _ _ = _ |- _ => rewrite H end.
  all: try (split; reflexivity).
  all: exfalso;
       repeat match goal with
       | H : (_ <? _)%nat = true |- _ => apply Nat.ltb_lt in H
       | H : (_ =? _)%nat = true |- _ => apply Nat.eqb_eq in H
       end;
       cbn [length] in *;
       destruct Hmake; destruct Hone; try discriminate; try congruence; subst;
       cbn [length] in *; lia.
Qed.

(** In command-line mode (exactly one of [-o], [-s], [-x], an input file,
    accepted camera options) [main] runs [cmdline] once, on the first input
    file, with the [-d] path, the directory the process started in, the
    selected renderer, and the [-D] definitions (each followed by a
    semicolon and a newline) appended to [commandline_commands]; what
    [main] printed before are the debug and deprecation notes; the status
    [main] returns is the one [cmdline] returns. *)
Theorem main_runs_cmdline_with_the_options
    (plat : Platform) (env : Env) (progname : string)
    (vm : variables_map) (p : Process) (output_file filename : string)
    (rest : list string) (cam : Cam.t)
    (Hinfo : no_information_option vm)
    (Hhandler : outputhandler (world p) = None)
    (Houtput : the_output_option vm = Some output_file)
    (Hmake : vm_m vm = None \/ make_command p = None)
    (Hinputs : vm_input_file vm = filename :: rest)
    (Hone : ENABLE_MDI plat = true \/ rest = [])
    (Hcamera : get_camera plat vm = parsed cam) :
  let w0 := mkWorld (files (world p)) (current_path (world p))
                    (stderr (world p) ++ notes vm) None
                    (dependencies (world p)) (journal (world p)) in
  let c := run (with_commands (commands p ++ definitions (vm_D vm)) env) (vm_d vm)
               filename (camera_of cam) output_file (current_path (world p))
               (select_renderer vm) w0 in
  let r := main plat env progname (inr vm) p in
  fst r = match fst c with Some rc => inr rc | None => inl faulted end
  /\ world (snd r) = snd c.
Proof.
  exact (main_cmdline_mode plat env progname vm p output_file filename rest cam
           Hinfo Hhandler Houtput Hmake Hinputs Hone Hcamera).
Qed.

(** An instance: [-o out.png -D quality=2 --viewall in.scad]. *)
Lemma main_runs_cmdline_witness :
  the_output_option (png_options false) = Some "out.png"
  /\ fst (main sample_platform (sample_env true true None None) "openscad"
               (inr (png_options false)) sample_process) = inr 0%Z.
Proof.
  split; [reflexivity |].
  exact (proj1 (main_runs_cmdline_with_the_options sample_platform
                  (sample_env true true None None) "openscad" (png_options false)
                  sample_process "out.png" "in.scad" []
                  (Cam.mk Cam.NONE Cam.PERSPECTIVE true false 512 512)
                  (conj eq_refl (conj eq_refl eq_refl)) eq_refl eq_refl
                  (or_introl eq_refl) eq_refl (or_intror eq_refl) eq_refl)).
Defined.

(** A raster run evaluates the geometry only with the full renderer. *)
Lemma png_evaluation_needs_the_full_renderer
    (env : Env) (deps_output_file : option string) (filename : string)
    (camera : Camera) (output_file original_path : string)
    (renderer : Render.type) (w : World) :
  output_suffix output_file = ".png" ->
  journal w = [] ->
  (1 <= geometry_evaluations
          (journal (snd (run env deps_output_file filename camera output_file
                             original_path renderer w))))%nat ->
  renderer = Render.CGAL.
Proof.
  intros Hsuffix Hstart. start_run w output_file.
  all: try match goal with
       | H : ~ In _ recognized_suffixes |- _ =>
           exfalso; apply H; rewrite Hsuffix; cbn; tauto
       end.
  all: try congruence.
  all: subst j; repeat step.
  all: intros ->; cbn; intros Hge; try reflexivity; lia.
Qed.

Lemma select_renderer_full (vm : variables_map) :
  select_renderer vm = Render.CGAL ->
  vm_render vm = true /\ vm_preview vm <> Some "throwntogether".
Proof.
  unfold select_renderer.
  destruct (vm_render vm), (vm_preview vm) as [s |]; try discriminate.
  - destruct (String.eqb s "throwntogether") eqn:E; [discriminate |].
    apply String.eqb_neq in E. intros _. split; [reflexivity | congruence].
  - intros _. split; [reflexivity | discriminate].
  - destruct (String.eqb s "throwntogether"); discriminate.
Qed.

(** An image requested from the command line is a preview unless asked
    otherwise: if the run evaluates the boundary representation at all,
    then [--render] was given and [--preview=throwntogether] was not. *)
Theorem image_is_a_preview_unless_render_is_asked
    (plat : Platform) (env : Env) (progname : string)
    (vm : variables_map) (p : Process) (output_file filename : string)
    (rest : list string) (cam : Cam.t)
    (Hinfo : no_information_option vm)
    (Hhandler : outputhandler (world p) = None)
    (Hjournal : journal (world p) = [])
    (Houtput : the_output_option vm = Some output_file)
    (Hsuffix : output_suffix output_file = ".png")
    (Hmake : vm_m vm = None \/ make_command p = None)
    (Hinputs : vm_input_file vm = filename :: rest)
    (Hone : ENABLE_MDI plat = true \/ rest = [])
    (Hcamera : get_camera plat vm = parsed cam) :
  let r := main plat env progname (inr vm) p in
  (1 <= geometry_evaluations (journal (world (snd r))))%nat ->
  vm_render vm = true /\ vm_preview vm <> Some "throwntogether".
Proof.
  intros r0 Hge; subst r0.
  destruct (main_cmdline_mode plat env progname vm p output_file filename rest cam
              Hinfo Hhandler Houtput Hmake Hinputs Hone Hcamera) as [_ Hw].
  rewrite Hw in Hge.
  apply select_renderer_full.
  eapply png_evaluation_needs_the_full_renderer; [exact Hsuffix | | exact Hge].
  exact Hjournal.
Qed.

(** An instance: [--render -o out.png in.scad] evaluates the geometry. *)
Lemma image_preview_witness :
  (1 <= geometry_evaluations
          (journal (world (snd (main sample_platform
                                     (sample_env true true (Some (mkGeometry 3)) None)
                                     "openscad" (inr (png_options true))
                                     sample_process)))))%nat
  /\ vm_render (png_options true) = true.
Proof.
  assert (H1 : (1 <= geometry_evaluations
                  (journal (world (snd (main sample_platform
                                          (sample_env true true (Some (mkGeometry 3)) None)
                                          "openscad" (inr (png_options true))
                                          sample_process)))))%nat)
    by (vm_compute; lia).
  split; [exact H1 |].
  exact (proj1 (image_is_a_preview_unless_render_is_asked sample_platform
                  (sample_env true true (Some (mkGeometry 3)) None) "openscad"
                  (png_options true) sample_process "out.png" "in.scad" []
                  (Cam.mk Cam.NONE Cam.PERSPECTIVE true false 512 512)
                  (conj eq_refl (conj eq_refl eq_refl)) eq_refl eq_refl eq_refl eq_refl
                  (or_introl eq_refl) eq_refl (or_intror eq_refl) eq_refl H1)).
Defined.

(** ** The usage text *)

Lemma string_length_append (a b : string) :
  String.length (a ++ b) = (String.length a + String.length b)%nat.
Proof.
  induction a as [| x a IH]; [reflexivity |].
  change (S (String.length (a ++ b)) = S (String.length a + String.length b)).
  now rewrite IH.
Qed.

Lemma count_char_append (c : ascii) (a b : string) :
  count_char c (a ++ b) = (count_char c a + count_char c b)%nat.
Proof.
  induction a as [| x a IH]; [reflexivity |].
  change (((if Ascii.eqb x c then 1 else 0) + count_char c (a ++ b))%nat
          = ((if Ascii.eqb x c then 1 else 0) + count_char c a + count_char c b)%nat).
  rewrite IH. lia.
Qed.

Lemma count_char_blanks (n : nat) : count_char newline (blanks n) = 0%nat.
Proof. induction n as [| n IH]; [reflexivity |]. cbn. exact IH. Qed.

(** A text that starts with a line without a newline in it. *)
Lemma split_first_line (a rest : string) :
  count_char newline a = 0%nat ->
  split newline (a ++ String newline rest) = a :: split newline rest.
Proof.
  induction a as [| x a IH]; intros H.
  - cbn. reflexivity.
  - cbn [count_char] in H.
    change (split newline (String x (a ++ String newline rest))
            = String x a :: split newline rest).
    cbn [split]. destruct (Ascii.eqb x newline) eqn:E; [cbn in H; lia |].
    rewrite IH by (cbn in H; lia). reflexivity.
Qed.

Lemma split_pieces (ps : list string) (rest : string) :
  Forall (fun s => count_char newline s = 0%nat) ps ->
  split newline (pieces ps (String newline rest))
  = pieces ps EmptyString :: split newline rest.
Proof.
  intros H.
  unfold pieces.
  assert (E : forall tail,
             fold_right String.append tail ps
             = (fold_right String.append EmptyString ps ++ tail)%string).
  { clear H. induction ps as [| s r IH]; intros tail; cbn [fold_right].
    - reflexivity.
    - rewrite IH. now rewrite string_append_assoc. }
  rewrite E. apply split_first_line. clear E.
  induction H as [| s r Hs Hr IH]; cbn [fold_right]; [reflexivity |].
  rewrite count_char_append, Hs, IH. reflexivity.
Qed.

Lemma usage_as_pieces (experimental debug_build : bool) (progname : string) :
  usage experimental debug_build progname
  = pieces ["Usage: "; progname; " [ -o output_file [ -d deps_file ] ]"; backslash]
      (String newline
         (fold_right
            (fun line rest => pieces [tabstr progname; line; backslash] (String newline rest))
            (pieces [tabstr progname; "filename"] (String newline EmptyString))
            (usage_continuation experimental debug_build))).
Proof. reflexivity. Qed.

(** The usage text is aligned: for a program name without a newline, the
    text is the first line, nine continuation lines (ten in a debug build)
    and the file-name line, each ended by a newline. Every continuation
    line and the file-name line start with as many blanks as
    "Usage: <progname> " is wide, and every line before the file-name line
    ends in a backslash. *)
Theorem usage_continuation_lines_are_aligned
    (experimental debug_build : bool) (progname : string)
    (Hname : count_char newline progname = 0%nat) :
  let width := String.length ("Usage: " ++ progname ++ " ") in
  exists continuation,
    lines_of (usage experimental debug_build progname)
    = (("Usage: " ++ progname ++ " [ -o output_file [ -d deps_file ] ]" ++ backslash)%string
       :: continuation ++ [(blanks width ++ "filename")%string; EmptyString])%list
    /\ length continuation = (9 + if debug_build then 1 else 0)%nat
    /\ Forall (fun line => exists text, line = (blanks width ++ text ++ backslash)%string)
              continuation.
Proof.
  intros width.
  assert (Hw : tabstr progname = blanks width).
  { unfold tabstr, width. f_equal. rewrite !string_length_append. cbn. lia. }
  assert (Ht : count_char newline (tabstr progname) = 0%nat)
    by apply count_char_blanks.
  unfold lines_of. rewrite usage_as_pieces.
  rewrite split_pieces by (repeat constructor; assumption).
  destruct experimental, debug_build; cbn [usage_continuation app fold_right].
  all: repeat (rewrite split_pieces by (repeat constructor; assumption)).
  all: rewrite Hw.
  all: match goal with
       | |- exists c, _ :: ?l = _ :: (c ++ [_; EmptyString])%list /\ _ =>
           exists (removelast (removelast l))
       end.
  all: cbn [pieces fold_right split removelast app]; rewrite ?string_append_nil_r.
  all: split; [reflexivity | split; [reflexivity |]].
  all: repeat constructor; eexists; reflexivity.
Qed.

(** An instance: the usage text of [openscad] has eleven lines. *)
Lemma usage_alignment_witness :
  count_char newline "openscad" = 0%nat
  /\ exists continuation,
       lines_of (usage false false "openscad")
       = (("Usage: openscad [ -o output_file [ -d deps_file ] ]" ++ backslash)%string
          :: continuation ++ [(blanks 16 ++ "filename")%string; EmptyString])%list
       /\ length continuation = 9%nat.
Proof.
  split; [reflexivity |].
  destruct (usage_continuation_lines_are_aligned false false "openscad" eq_refl)
    as (c & H1 & H2 & _).
  exists c. split; [exact H1 | exact H2].
Defined.
